(** * tap-pardot: the request-governance layer of [tap_pardot/client.py]

    A shallow embedding of the Pardot client: the daily call counter kept
    in redis, the session obtained by [login], the request executor
    [_make_request] with its one-shot re-authentication, and the
    [backoff.on_exception] wrapper around [describe] and [_fetch].

    Python objects are modelled as follows.
    - A parsed JSON body (and Python's [None]) is a [json] value; a dict is
      the list of its items, looked up from the front; a number is an
      integer.
    - An exception is a constructor of [exn]; a call either returns or
      raises, and keeps the effects it had before raising.
    - The remote side is a script of pending replies, consumed one per
      transport call; every transport call is appended to the log [sent].
    - redis is a finite map from keys to integer counts.  A [set] with a
      time to live that is not positive is refused, as the server does;
      the expiry itself is a real-time effect and other processes are not
      part of the model: the map changes only through this client. *)

From stdpp Require Import base option list strings gmap fin_maps.
From Stdlib Require Import ZArith Lia.

Local Set Warnings "-register-all".
Local Open Scope string_scope.
Local Open Scope list_scope.
Local Open Scope Z_scope.

(** ** Python values *)

Inductive json :=
| JNull
| JBool (b : bool)
| JNum (n : Z)
| JStr (s : string)
| JArr (xs : list json)
| JObj (items : list (string * json)).

(** The result of [template.format( *args )]: formatting is deterministic,
    so a formatted string is represented by its template and arguments. *)
Inductive text :=
| Lit (s : string)
| Format (template : string) (args : list json).

Inductive exn :=
| Pardot5xxError
| PardotException (code : json) (response : json) (message : text)
| PardotUserLimitReached
| HTTPError (status : Z)
| ConnectionError
| JSONDecodeError
| KeyError (key : string)
| TypeError
| AttributeError
| ResponseError.

Inductive result (A : Type) :=
| Ok (a : A)
| Raise (e : exn).
Arguments Ok {A} a.
Arguments Raise {A} e.

Module Py.

(** [bool(v)] *)
Definition truthy (v : json) : bool :=
  match v with
  | JNull => false
  | JBool b => b
  | JNum n => negb (n =? 0)
  | JStr s => negb (String.eqb s "")
  | JArr xs => match xs with [] => false | _ => true end
  | JObj kv => match kv with [] => false | _ => true end
  end.

Fixpoint assoc (k : string) (kv : list (string * json)) : option json :=
  match kv with
  | [] => None
  | (k', v) :: rest => if String.eqb k k' then Some v else assoc k rest
  end.

(** [d.get(k, default)]; only a dict has [get]. *)
Definition get (d : json) (k : string) (default : json) : result json :=
  match d with
  | JObj kv => Ok (match assoc k kv with Some v => v | None => default end)
  | _ => Raise AttributeError
  end.

(** [d[k]] with a string key. *)
Definition getitem (d : json) (k : string) : result json :=
  match d with
  | JObj kv => match assoc k kv with Some v => Ok v | None => Raise (KeyError k) end
  | _ => Raise TypeError
  end.

(** [v == n] for an int literal [n]: [True == 1] and [False == 0] hold in
    Python, no string, list, dict or [None] equals an int. *)
Definition eq_int (v : json) (n : Z) : bool :=
  match v with
  | JNum m => m =? n
  | JBool b => (if b then 1 else 0) =? n
  | _ => false
  end.

(** [a or b] *)
Definition or (a b : json) : json := if truthy a then a else b.

End Py.

(** ** Transport, configuration and state *)

Record Response := {
  status_code : Z;
  (** [response.json()]: [None] when the body is not JSON *)
  body : option json
}.

Record Creds := { email : string; password : string; user_key : string }.

Record Request := {
  req_method : string;
  req_url : text;
  req_headers : list (string * text);
  req_params : gmap string json;
  req_data : option Creds
}.

(** [config]: the keys the client reads.  [daily_limit] is an integer or
    absent; [ttl_days], read from [config["redis"]], is a whole number of
    days or absent. *)
Record Config := {
  cfg_email : string;
  cfg_password : string;
  cfg_user_key : string;
  cfg_daily_limit : option Z;
  cfg_account_id : string;
  cfg_ttl_days : option Z
}.

(** The attributes of a [Client] instance. *)
Record Client := {
  config : Config;
  creds : Creds;
  api_calls_limit : option Z;
  redis_key : string;
  api_version : json;
  api_key : json
}.

Record World := {
  (** redis: key to count *)
  store : gmap string Z;
  (** the [ex] argument of the [set] that created a key, in days *)
  expiry : gmap string Z;
  (** [utils.now().strftime("%Y-%m-%d")] *)
  today : string;
  (** replies the remote side will give, [None] for a failed connection *)
  pending : list (option Response);
  (** every transport call made so far, oldest first *)
  sent : list Request
}.

Record state := { self : Client; world : World }.

Definition set_store (f : gmap string Z → gmap string Z) (w : World) : World :=
  {| store := f (store w); expiry := expiry w; today := today w;
     pending := pending w; sent := sent w |}.

Definition set_expiry (f : gmap string Z → gmap string Z) (w : World) : World :=
  {| store := store w; expiry := f (expiry w); today := today w;
     pending := pending w; sent := sent w |}.

Definition exchange (rq : Request) (w : World) : World :=
  {| store := store w; expiry := expiry w; today := today w;
     pending := tail (pending w); sent := sent w ++ [rq] |}.

Definition set_api_version (v : json) (c : Client) : Client :=
  {| config := config c; creds := creds c; api_calls_limit := api_calls_limit c;
     redis_key := redis_key c; api_version := v; api_key := api_key c |}.

Definition set_api_key (v : json) (c : Client) : Client :=
  {| config := config c; creds := creds c; api_calls_limit := api_calls_limit c;
     redis_key := redis_key c; api_version := api_version c; api_key := v |}.

(** ** Calls that read and write the state and may raise *)

Definition M (A : Type) : Type := state → result A * state.

#[global] Instance M_ret : MRet M := λ A a s, (Ok a, s).
#[global] Instance M_bind : MBind M := λ A B f m s,
  match m s with
  | (Ok a, s') => f a s'
  | (Raise e, s') => (Raise e, s')
  end.

Definition raise {A} (e : exn) : M A := λ s, (Raise e, s).
Definition lift {A} (r : result A) : M A := λ s, (r, s).
Definition get_self : M Client := λ s, (Ok (self s), s).
Definition modify_self (f : Client → Client) : M unit :=
  λ s, (Ok tt, {| self := f (self s); world := world s |}).
Definition modify_world (f : World → World) : M unit :=
  λ s, (Ok tt, {| self := self s; world := f (world s) |}).

Module redis.

(** [redis.get(name)]: the stored count, [None] when the key is absent *)
Definition get (name : string) : M (option Z) :=
  λ s, (Ok (store (world s) !! name), s).

(** [redis.set(name, value, ex)] with [ex] a time to live in days: the
    server refuses a time to live that is not positive ("invalid expire
    time"), which the client library raises as [ResponseError]. *)
Definition set (name : string) (value : Z) (ex : Z) : M unit :=
  if ex <=? 0 then raise ResponseError
  else modify_world (λ w, set_expiry <[name := ex]> (set_store <[name := value]> w)).

(** [redis.incr(name)]: an absent key counts as 0 *)
Definition incr (name : string) : M unit :=
  modify_world (set_store (λ m, <[name := default 0 (m !! name) + 1]> m)).

End redis.

(** [int(x)] for what [redis.get] returned *)
Definition int (x : option Z) : M Z :=
  match x with
  | Some n => mret n
  | None => raise TypeError
  end.

Module requests.

(** One transport call: logged, answered by the next pending reply. *)
Definition exchange_with (rq : Request) : M Response :=
  λ s,
    let s' := {| self := self s; world := exchange rq (world s) |} in
    match pending (world s) with
    | Some r :: _ => (Ok r, s')
    | _ => (Raise ConnectionError, s')
    end.

Definition request (method : string) (url : text)
    (headers : list (string * text)) (params : gmap string json) : M Response :=
  exchange_with {| req_method := method; req_url := url; req_headers := headers;
                   req_params := params; req_data := None |}.

Definition post (url : text) (data : Creds) (params : gmap string json) : M Response :=
  exchange_with {| req_method := "post"; req_url := url; req_headers := [];
                   req_params := params; req_data := Some data |}.

(** [response.raise_for_status()] *)
Definition raise_for_status (r : Response) : M unit :=
  if (400 <=? status_code r) && (status_code r <? 600)
  then raise (HTTPError (status_code r))
  else mret tt.

(** [response.json()] *)
Definition json (r : Response) : M json :=
  match body r with
  | Some content => mret content
  | None => raise JSONDecodeError
  end.

End requests.

(** ** The module [tap_pardot.client] *)

Definition AUTH_URL : string := "https://pi.pardot.com/api/login/version/3".
Definition ENDPOINT_BASE : string := "https://pi.pardot.com/api/".

(** [PardotException(message, response_content)] *)
Definition new_PardotException (message : text) (response_content : json) : result exn :=
  match Py.get response_content "@attributes" (JObj []) with
  | Ok attrs =>
      match Py.get attrs "err_code" JNull with
      | Ok code => Ok (PardotException code response_content message)
      | Raise e => Raise e
      end
  | Raise e => Raise e
  end.

(** [exc.code] *)
Definition exn_code (exc : exn) : result json :=
  match exc with
  | PardotException code _ _ => Ok code
  | PardotUserLimitReached => Ok (JNum 1)
  | _ => Raise AttributeError
  end.

Definition is_not_retryable_pardot_exception (exc : exn) : result bool :=
  match exc with
  | Pardot5xxError => Ok false
  | PardotUserLimitReached => Ok true
  | _ =>
      match exn_code exc with
      | Ok code => if Py.eq_int code 66 then Ok false else Ok true
      | Raise e => Raise e
      end
  end.

Definition get_url : string := "{}/version/{}/do/query".
Definition describe_url : string := "{}/version/{}/do/describe".

(** [raise PardotException(...)]: raises what the constructor raises when
    the constructor itself fails. *)
Definition raise_new {A} (r : result exn) : M A :=
  match r with
  | Ok e => raise e
  | Raise e => raise e
  end.

Definition _check_error (content : json) (activity : string) : M unit :=
  error_message ← lift (Py.get content "err" JNull);
  if Py.truthy error_message then
    attrs ← lift (Py.getitem content "@attributes");
    error_code ← lift (Py.getitem attrs "err_code");
    raise_new (new_PardotException
      (Format "Pardot returned error code {} while {}. Message: {}"
              [error_code; JStr activity; error_message])
      content)
  else mret tt.

Definition login : M unit :=
  c ← get_self;
  response ← requests.post (Lit AUTH_URL) (creds c) {["format" := JStr "json"]};
  requests.raise_for_status response;;
  content ← requests.json response;
  _check_error content "authenticating";;
  redis.incr (redis_key c);;
  version ← lift (Py.get content "version" JNull);
  modify_self (set_api_version (Py.or version (JStr "3")));;
  key ← lift (Py.getitem content "api_key");
  modify_self (set_api_key key).

Definition _get_auth_header : M (list (string * text)) :=
  c ← get_self;
  mret [("Authorization",
         Format "Pardot api_key={}, user_key={}" [api_key c; JStr (user_key (creds c))])].

(** [self.api_calls_limit and num < self.api_calls_limit] as a condition *)
Definition below_limit (limit : option Z) (num : Z) : bool :=
  match limit with
  | Some l => negb (l =? 0) && (num <? l)
  | None => false
  end.

Definition _make_request (method : string) (url : text) (params : gmap string json)
    : M json :=
  c ← get_self;
  num_api_calls_made ← redis.get (redis_key c) ≫= int;
  if below_limit (api_calls_limit c) num_api_calls_made then
    headers ← _get_auth_header;
    response ← requests.request method url headers params;
    (if 500 <=? status_code response then raise Pardot5xxError else mret tt);;
    requests.raise_for_status response;;
    content ← requests.json response;
    error_message ← lift (Py.get content "err" JNull);
    if Py.truthy error_message then
      attrs ← lift (Py.getitem content "@attributes");
      error_code ← lift (Py.getitem attrs "err_code");
      content ←
        (if Py.eq_int error_code 1 then
           login;;
           headers ← _get_auth_header;
           response ← requests.request method url headers params;
           content ← requests.json response;
           redis.incr (redis_key c);;
           mret content
         else mret content);
      (if Py.eq_int error_code 122 then raise PardotUserLimitReached else mret tt);;
      mret content
    else
      redis.incr (redis_key c);;
      mret content
  else raise PardotUserLimitReached.

(** The decorator [backoff.on_exception(backoff.expo, (PardotException,
    Pardot5xxError), giveup=is_not_retryable_pardot_exception, jitter=None)]
    of the third-party [backoff] package: call the target; an exception of
    another class passes through; a caught one is handed to [giveup] and
    re-raised when that returns true, otherwise the target is called again
    after a sleep.  No [max_tries] or [max_time] is given, so the number of
    attempts is unbounded: [fuel] bounds the attempts of one run of the
    model, and [None] means the wrapper was still retrying when it ran
    out.  The length of the sleeps is real time and is not modelled. *)
Definition caught (e : exn) : bool :=
  match e with
  | PardotException _ _ _ | Pardot5xxError => true
  | _ => false
  end.

Fixpoint on_exception {A} (fuel : nat) (target : M A) (s : state)
    : option (result A * state) :=
  match fuel with
  | O => None
  | S fuel' =>
      match target s with
      | (Ok a, s') => Some (Ok a, s')
      | (Raise e, s') =>
          if caught e then
            match is_not_retryable_pardot_exception e with
            | Ok true => Some (Raise e, s')
            | Ok false => on_exception fuel' target s'
            | Raise e' => Some (Raise e', s')
            end
          else Some (Raise e, s')
      end
  end.

(** [{"format": "json", "output": "bulk", **kwargs}]: a key of [kwargs]
    replaces the literal entry of the same name. *)
Definition request_params (kwargs : gmap string json) : gmap string json :=
  kwargs ∪ <["output" := JStr "bulk"]> {["format" := JStr "json"]}.

(** The body of [describe], the function that its decorator wraps
    ([describe.__wrapped__]), and [describe] as decorated. *)
Definition describe_wrapped (endpoint : string) (kwargs : gmap string json) : M json :=
  c ← get_self;
  let url := Format (String.append ENDPOINT_BASE describe_url)
                    [JStr endpoint; api_version c] in
  let params := request_params kwargs in
  content ← _make_request "get" url params;
  _check_error content "describing endpoint";;
  mret content.

Definition describe (fuel : nat) (endpoint : string) (kwargs : gmap string json)
    : state → option (result json * state) :=
  on_exception fuel (describe_wrapped endpoint kwargs).

(** The body of [_fetch] and [_fetch] as decorated.  [format_params] is
    [None] or a list; [str.format] ignores the arguments beyond the two
    fields of [get_url]. *)
Definition _fetch_wrapped (method endpoint : string)
    (format_params : option (list json)) (kwargs : gmap string json) : M json :=
  c ← get_self;
  let base_formatting := [JStr endpoint; api_version c] in
  let base_formatting :=
    match format_params with
    | Some (p :: ps) => base_formatting ++ p :: ps
    | _ => base_formatting
    end in
  let url := Format (String.append ENDPOINT_BASE get_url) base_formatting in
  let params := request_params kwargs in
  content ← _make_request method url params;
  _check_error content "retrieving endpoint";;
  mret content.

Definition _fetch (fuel : nat) (method endpoint : string)
    (format_params : option (list json)) (kwargs : gmap string json)
    : state → option (result json * state) :=
  on_exception fuel (_fetch_wrapped method endpoint format_params kwargs).

Definition get (fuel : nat) (endpoint : string) (format_params : option (list json))
    (kwargs : gmap string json) : state → option (result json * state) :=
  _fetch fuel "get" endpoint format_params kwargs.

Definition post (fuel : nat) (endpoint : string) (format_params : option (list json))
    (kwargs : gmap string json) : state → option (result json * state) :=
  _fetch fuel "post" endpoint format_params kwargs.

(** [self.api_calls_limit and num_api_calls_made >= self.api_calls_limit] *)
Definition limit_reached (limit : option Z) (num : Z) : bool :=
  match limit with
  | Some l => negb (l =? 0) && (l <=? num)
  | None => false
  end.

(** [Client(config)]: the attributes set before the first redis call, then
    the rest of [__init__] on the new instance. *)
Definition new_instance (cfg : Config) (w : World) : Client :=
  {| config := cfg;
     creds := {| email := cfg_email cfg; password := cfg_password cfg;
                 user_key := cfg_user_key cfg |};
     api_calls_limit := cfg_daily_limit cfg;
     redis_key := String.append "tap-pardot/"
                    (String.append (cfg_account_id cfg)
                       (String.append "/" (today w)));
     api_version := JNull;
     api_key := JNull |}.

Definition init_body : M unit :=
  c ← get_self;
  curr_api_calls_made ← redis.get (redis_key c);
  num_api_calls_made ←
    match curr_api_calls_made with
    | None =>
        redis.set (redis_key c) 0 (default 30 (cfg_ttl_days (config c)));;
        mret 0
    | Some n => mret n
    end;
  (if limit_reached (api_calls_limit c) num_api_calls_made
   then raise PardotUserLimitReached else mret tt);;
  login.

Definition __init__ (cfg : Config) (w : World) : result Client * World :=
  match init_body {| self := new_instance cfg w; world := w |} with
  | (Ok _, s) => (Ok (self s), world s)
  | (Raise e, s) => (Raise e, world s)
  end.

(** ** Vocabulary of the properties *)

(** A logical call through the public methods: [describe], or [get] and
    [post], which are [_fetch] with their method name. *)
Inductive call :=
| Describe (endpoint : string) (kwargs : gmap string json)
| Fetch (method endpoint : string) (format_params : option (list json))
    (kwargs : gmap string json).

(** One execution of the decorated function's body. *)
Definition attempt (c : call) : M json :=
  match c with
  | Describe endpoint kwargs => describe_wrapped endpoint kwargs
  | Fetch method endpoint format_params kwargs =>
      _fetch_wrapped method endpoint format_params kwargs
  end.

(** The call as the caller makes it, under the backoff decorator. *)
Definition perform (fuel : nat) (c : call) : state → option (result json * state) :=
  match c with
  | Describe endpoint kwargs => describe fuel endpoint kwargs
  | Fetch method endpoint format_params kwargs =>
      _fetch fuel method endpoint format_params kwargs
  end.

Definition call_method (c : call) : string :=
  match c with
  | Describe _ _ => "get"
  | Fetch method _ _ _ => method
  end.

Definition call_kwargs (c : call) : gmap string json :=
  match c with
  | Describe _ kwargs => kwargs
  | Fetch _ _ _ kwargs => kwargs
  end.

Definition call_activity (c : call) : string :=
  match c with
  | Describe _ _ => "describing endpoint"
  | Fetch _ _ _ _ => "retrieving endpoint"
  end.

(** The URL the call formats from the session it finds. *)
Definition call_url (c : call) (self : Client) : text :=
  match c with
  | Describe endpoint _ =>
      Format (String.append ENDPOINT_BASE describe_url)
             [JStr endpoint; api_version self]
  | Fetch _ endpoint format_params _ =>
      Format (String.append ENDPOINT_BASE get_url)
             match format_params with
             | Some (p :: ps) => [JStr endpoint; api_version self] ++ p :: ps
             | _ => [JStr endpoint; api_version self]
             end
  end.

(** The transport calls the client makes. *)
Definition auth_header (self : Client) : list (string * text) :=
  [("Authorization",
    Format "Pardot api_key={}, user_key={}" [api_key self; JStr (user_key (creds self))])].

Definition data_request (method : string) (url : text) (params : gmap string json)
    (self : Client) : Request :=
  {| req_method := method; req_url := url; req_headers := auth_header self;
     req_params := params; req_data := None |}.

Definition login_request (self : Client) : Request :=
  {| req_method := "post"; req_url := Lit AUTH_URL; req_headers := [];
     req_params := {["format" := JStr "json"]}; req_data := Some (creds self) |}.

(** The [api_version] that [login] takes from a body:
    [content.get("version") or "3"]. *)
Definition session_version (content : json) : json :=
  match Py.get content "version" JNull with
  | Ok version => Py.or version (JStr "3")
  | Raise _ => JStr "3"
  end.

(** The condition under which [raise_for_status] raises. *)
Definition raises_for_status (r : Response) : bool :=
  (400 <=? status_code r) && (status_code r <? 600).

(** State changes, named. *)
Definition transmitted (rq : Request) (s : state) : state :=
  {| self := self s; world := exchange rq (world s) |}.

Definition counted (s : state) : state :=
  {| self := self s;
     world := set_store (λ m, <[redis_key (self s) := default 0 (m !! redis_key (self s)) + 1]> m)
                        (world s) |}.

Definition with_session (version key : json) (s : state) : state :=
  {| self := set_api_key key (set_api_version version (self s)); world := world s |}.

Definition with_pending (ps : list (option Response)) (s : state) : state :=
  {| self := self s;
     world := {| store := store (world s); expiry := expiry (world s);
                 today := today (world s); pending := ps; sent := sent (world s) |} |}.

(** The state after request [rq] was sent and a [login] then returned on a
    body [content] holding [key]: two transport calls logged, the login
    counted, the session replaced. *)
Definition reauthenticated (rq : Request) (content key : json) (s : state) : state :=
  with_session (session_version content) key
    (counted (transmitted (login_request (self s)) (transmitted rq s))).

(** The state after [__init__] found no count for the account-day and set
    it to 0. *)
Definition initialised (s : state) : state :=
  {| self := self s;
     world := set_expiry <[redis_key (self s) := default 30 (cfg_ttl_days (config (self s)))]>
                (set_store <[redis_key (self s) := 0]> (world s)) |}.

(** The count of the client's account-day. *)
Definition count (s : state) : option Z := store (world s) !! redis_key (self s).

(** The reply the next transport call will get. *)
Definition next_reply (s : state) : option Response :=
  match pending (world s) with
  | Some r :: _ => Some r
  | _ => None
  end.

Definition is_2xx (r : Response) : bool :=
  (200 <=? status_code r) && (status_code r <? 300).

(** The embedded error of a body: the code under ["@attributes"] and the
    message under ["err"], when the message is truthy. *)
Definition embedded_error (content : json) : option (json * json) :=
  match Py.get content "err" JNull with
  | Ok message =>
      if Py.truthy message then
        match Py.getitem content "@attributes" with
        | Ok attrs =>
            match Py.getitem attrs "err_code" with
            | Ok code => Some (code, message)
            | Raise _ => None
            end
        | Raise _ => None
        end
      else None
  | Raise _ => None
  end.

(** A dict whose ["err"] is absent or falsy. *)
Definition error_free (content : json) : bool :=
  match Py.get content "err" JNull with
  | Ok message => negb (Py.truthy message)
  | Raise _ => false
  end.

(** The message [_check_error] formats. *)
Definition error_text (code : json) (activity : string) (message : json) : text :=
  Format "Pardot returned error code {} while {}. Message: {}"
         [code; JStr activity; message].

(** The constructor finds no count and is configured with a time to live
    that redis refuses. *)
Definition ttl_refused (s : state) : bool :=
  match count s with
  | Some _ => false
  | None => default 30 (cfg_ttl_days (config (self s))) <=? 0
  end.

(** The failures that come from no body of the API: the refusal of the
    local limit, a 5xx, and the HTTP error status [raise_for_status]
    raises for. *)
Definition quota_or_status (e : exn) : bool :=
  match e with
  | PardotUserLimitReached | Pardot5xxError | HTTPError _ => true
  | _ => false
  end.

(** States a constructed client can be in: after [Client(config)] returned,
    and then after any public call, any further [login], and any change of
    what the remote side will reply. *)
Inductive constructed (cfg : Config) : state → Prop :=
| constructed_init w c w' :
    __init__ cfg w = (Ok c, w') →
    constructed cfg {| self := c; world := w' |}
| constructed_call s fuel c r s' :
    constructed cfg s → perform fuel c s = Some (r, s') → constructed cfg s'
| constructed_login s r s' :
    constructed cfg s → login s = (r, s') → constructed cfg s'
| constructed_pending s ps :
    constructed cfg s → constructed cfg (with_pending ps s).

(** What every call keeps: the key and the limit of the client, and the
    counts of redis, which stay present and never decrease. *)
Definition keeps (s s' : state) : Prop :=
  redis_key (self s') = redis_key (self s) ∧
  api_calls_limit (self s') = api_calls_limit (self s) ∧
  ∀ k n, store (world s) !! k = Some n →
         ∃ n', store (world s') !! k = Some n' ∧ n ≤ n'.

(** The transport calls of a logical call: logins, and requests with the
    method and the parameters of the call. *)
Definition of_call (c : call) (rq : Request) : Prop :=
  (∃ self, rq = login_request self) ∨
  (req_method rq = call_method c ∧
   req_params rq = request_params (call_kwargs c) ∧
   req_data rq = None).

Definition sends_only (allowed : Request → Prop) (s s' : state) : Prop :=
  ∃ new, sent (world s') = sent (world s) ++ new ∧ Forall allowed new.

(** The replies still to come, and the calls that do not add to them. *)
Definition remaining (s : state) : nat := length (pending (world s)).

Definition shrinks (s s' : state) : Prop := (remaining s' ≤ remaining s)%nat.

(** ** Concrete clients and replies *)

Module Example.

Definition cfg (limit : option Z) : Config :=
  {| cfg_email := "user@example.com"; cfg_password := "secret";
     cfg_user_key := "uk"; cfg_daily_limit := limit;
     cfg_account_id := "42"; cfg_ttl_days := None |}.

Definition key : string := "tap-pardot/42/2020-01-01".

Definition client (limit : option Z) : Client :=
  {| config := cfg limit;
     creds := {| email := "user@example.com"; password := "secret";
                 user_key := "uk" |};
     api_calls_limit := limit;
     redis_key := key;
     api_version := JStr "3";
     api_key := JStr "k0" |}.

(** A client with [n] calls counted today and [replies] to come. *)
Definition at_count (limit : option Z) (n : Z) (replies : list (option Response))
    : state :=
  {| self := client limit;
     world := {| store := {[key := n]}; expiry := {[key := 30]};
                 today := "2020-01-01"; pending := replies; sent := [] |} |}.

(** A world in which nothing was counted yet. *)
Definition fresh (replies : list (option Response)) : World :=
  {| store := ∅; expiry := ∅; today := "2020-01-01";
     pending := replies; sent := [] |}.

Definition reply (content : json) : Response :=
  {| status_code := 200; body := Some content |}.

Definition failure (code : Z) (message : string) : json :=
  JObj [("@attributes", JObj [("stat", JStr "fail"); ("version", JNum 1);
                              ("err_code", JNum code)]);
        ("err", JStr message)].

Definition key_expired : json := failure 1 "Invalid API key or user key".
Definition limit_met : json := failure 122 "Daily API rate limit met".
Definition invalid_credentials : json := failure 15 "Login failed".
Definition invalid_id : json := failure 3 "Invalid prospect ID".

Definition logged_in : json :=
  JObj [("@attributes", JObj [("stat", JStr "ok"); ("version", JNum 1)]);
        ("api_key", JStr "k1"); ("version", JNum 4)].

(** An error-free 2xx body without ["api_key"]. *)
Definition no_key : json :=
  JObj [("@attributes", JObj [("stat", JStr "ok"); ("version", JNum 1)]);
        ("version", JNum 4)].

Definition page : json :=
  JObj [("@attributes", JObj [("stat", JStr "ok"); ("version", JNum 1)]);
        ("result", JObj [("total_results", JNum 0)])].

(** The client that [Client(config)] gives without a daily limit, the
    login having succeeded. *)
Definition unlimited : state :=
  match __init__ (cfg None) (fresh [Some (reply logged_in); Some (reply page)]) with
  | (Ok c, w) => {| self := c; world := w |}
  | (Raise _, w) => {| self := client None; world := w |}
  end.

End Example.

(** What a caller and an observer of redis see of a finished call. *)
Definition outcome (o : option (result json * state))
    : option (result json * option Z) :=
  (λ '(r, s'), (r, count s')) <$> o.

(** ** Vocabulary of the further properties *)

(** What no call changes: the configuration, the credentials, the limit
    and the key of the client, the day, and the expiry of every key. *)
Definition immutable (s s' : state) : Prop :=
  config (self s') = config (self s) ∧
  creds (self s') = creds (self s) ∧
  api_calls_limit (self s') = api_calls_limit (self s) ∧
  redis_key (self s') = redis_key (self s) ∧
  expiry (world s') = expiry (world s) ∧
  today (world s') = today (world s).

(** The payload of a reply that a call returns as it is: a 2xx status and
    an error-free body. *)
Definition payload_of (r : Response) : option json :=
  if is_2xx r then
    match body r with
    | Some content => if error_free content then Some content else None
    | None => None
    end
  else None.

(** Calls made one after the other, each once (the decorator is given one
    attempt), every call starting where the one before ended. *)
Fixpoint perform_each (cs : list call) (s : state) : option (list (result json) * state) :=
  match cs with
  | [] => Some ([], s)
  | c :: cs' =>
      match perform 1 c s with
      | Some (r, s') =>
          match perform_each cs' s' with
          | Some (rs, s'') => Some (r :: rs, s'')
          | None => None
          end
      | None => None
      end
  end.

(** More replies. *)
Module Scenario.

(** A 503 whose body is nevertheless an error-free JSON object. *)
Definition unavailable : Response :=
  {| status_code := 503; body := Some Example.page |}.

Definition not_found : Response :=
  {| status_code := 404; body := None |}.

Definition busy : json :=
  Example.failure 66 "You have exceeded your concurrent request limit".

(** A truthy ["err"] with nothing else. *)
Definition bare_error : json := JObj [("err", JStr "Unknown error")].

(** A truthy ["err"] with attributes that hold no code. *)
Definition codeless_error : json :=
  JObj [("@attributes", JObj [("stat", JStr "fail")]); ("err", JStr "Unknown error")].

(** An object whose ["err"] is the empty string. *)
Definition empty_error : json :=
  JObj [("err", JStr ""); ("result", JNull)].


End Scenario.

(** * Proofs *)

(** ** Running the model by hand *)

Ltac munfold :=
  unfold _check_error, _get_auth_header, raise_new, requests.request,
    requests.post, requests.exchange_with, requests.raise_for_status,
    requests.json, redis.get, redis.incr, redis.set, int, get_self,
    modify_self, modify_world, raise, lift, mbind, M_bind, mret, M_ret.

Ltac msimpl :=
  cbn -[below_limit Py.get Py.getitem Py.truthy Py.eq_int Py.or Z.leb Z.ltb
        String.append].

Section Replies.

Lemma next_reply_Some s r :
  next_reply s = Some r → ∃ ps, pending (world s) = Some r :: ps.
Proof.
  unfold next_reply.
  destruct (pending (world s)) as [|[r'|] ps]; intros; simplify_eq; eauto.
Qed.

Lemma next_reply_None s :
  next_reply s = None →
  pending (world s) = [] ∨ ∃ ps, pending (world s) = None :: ps.
Proof.
  unfold next_reply.
  destruct (pending (world s)) as [|[r'|] ps]; intros; simplify_eq; eauto.
Qed.

Lemma is_2xx_passes r :
  is_2xx r = true → raises_for_status r = false ∧ (500 <=? status_code r) = false.
Proof. unfold is_2xx, raises_for_status. lia. Qed.

End Replies.

Section Bodies.

Lemma get_raises d k default e : Py.get d k default = Raise e → e = AttributeError.
Proof. destruct d; simpl; congruence. Qed.

Lemma getitem_raises d k e :
  Py.getitem d k = Raise e → e = KeyError k ∨ e = TypeError.
Proof.
  destruct d; simpl; try (intros [= <-]; by right).
  destruct (Py.assoc k items); intros [= <-]. by left.
Qed.

Lemma error_free_inv content :
  error_free content = true →
  ∃ m, Py.get content "err" JNull = Ok m ∧ Py.truthy m = false ∧
       ∀ k d, ∃ v, Py.get content k d = Ok v.
Proof.
  unfold error_free.
  destruct (Py.get content "err" JNull) as [m|] eqn:Hm; [|done].
  intros Ht%negb_true_iff. exists m. split_and!; [done..|].
  destruct content; try discriminate. intros; simpl; eauto.
Qed.

Lemma embedded_error_inv content code message :
  embedded_error content = Some (code, message) →
  Py.get content "err" JNull = Ok message ∧ Py.truthy message = true ∧
  ∃ attrs, Py.getitem content "@attributes" = Ok attrs ∧
           Py.getitem attrs "err_code" = Ok code.
Proof.
  unfold embedded_error. intros H.
  destruct (Py.get content "err" JNull) as [m|]; [|done].
  destruct (Py.truthy m) eqn:Ht; [|done].
  destruct (Py.getitem content "@attributes") as [attrs|] eqn:Ha; [|done].
  destruct (Py.getitem attrs "err_code") as [c|] eqn:Hc; [|done].
  simplify_eq. eauto 10.
Qed.

(** The exception built from a body that carries an error has the
    body's code. *)
Lemma new_PardotException_embedded content code message msg :
  embedded_error content = Some (code, message) →
  new_PardotException msg content = Ok (PardotException code content msg).
Proof.
  intros (_ & _ & attrs & Ha & Hc)%embedded_error_inv.
  unfold new_PardotException.
  destruct content; try discriminate. simpl in *.
  destruct (Py.assoc "@attributes" items); simplify_eq.
  destruct attrs; try discriminate. simpl in *.
  destruct (Py.assoc "err_code" items0); by simplify_eq.
Qed.

Lemma eq_int_exclusive code a b : a ≠ b → Py.eq_int code a = true → Py.eq_int code b = false.
Proof.
  intros Hab. unfold Py.eq_int.
  destruct code as [|[]| | | |]; try done;
    rewrite Z.eqb_eq, Z.eqb_neq; congruence.
Qed.

Lemma session_version_get content version :
  Py.get content "version" JNull = Ok version →
  Py.or version (JStr "3") = session_version content.
Proof. intros H. unfold session_version. by rewrite H. Qed.

End Bodies.

(** ** [_check_error] *)

Lemma _check_error_free content activity s :
  error_free content = true → _check_error content activity s = (Ok tt, s).
Proof.
  intros (m & Hm & Ht & _)%error_free_inv. munfold. by rewrite Hm, Ht.
Qed.

Lemma _check_error_embedded content activity code message s :
  embedded_error content = Some (code, message) →
  _check_error content activity s =
    (Raise (PardotException code content (error_text code activity message)), s).
Proof.
  intros He. pose proof He as (Hm & Ht & attrs & Ha & Hc)%embedded_error_inv.
  munfold. rewrite Hm, Ht, Ha, Hc.
  by rewrite (new_PardotException_embedded _ _ _ _ He).
Qed.

(** ** [login] *)

Lemma login_returns s r content key :
  next_reply s = Some r →
  raises_for_status r = false →
  body r = Some content →
  error_free content = true →
  Py.getitem content "api_key" = Ok key →
  login s = (Ok tt, with_session (session_version content) key
                      (counted (transmitted (login_request (self s)) s))).
Proof.
  intros (ps & Hp)%next_reply_Some Hst Hb (m & Hm & Ht & Hget)%error_free_inv Hk.
  destruct (Hget "version" JNull) as [v Hv].
  unfold raises_for_status in Hst.
  unfold login. munfold. msimpl. rewrite Hp, Hst, Hb. msimpl.
  rewrite Hm, Ht, Hv, Hk. msimpl. by rewrite (session_version_get _ _ Hv).
Qed.

Lemma login_raises_status s r :
  next_reply s = Some r →
  raises_for_status r = true →
  login s = (Raise (HTTPError (status_code r)),
             transmitted (login_request (self s)) s).
Proof.
  intros (ps & Hp)%next_reply_Some Hst. unfold raises_for_status in Hst.
  unfold login. munfold. msimpl. by rewrite Hp, Hst.
Qed.

Lemma login_raises_embedded s r content code message :
  next_reply s = Some r →
  raises_for_status r = false →
  body r = Some content →
  embedded_error content = Some (code, message) →
  login s = (Raise (PardotException code content
                      (error_text code "authenticating" message)),
             transmitted (login_request (self s)) s).
Proof.
  intros (ps & Hp)%next_reply_Some Hst Hb He.
  pose proof He as (Hm & Ht & attrs & Ha & Hc)%embedded_error_inv.
  unfold raises_for_status in Hst.
  unfold login. munfold. msimpl. rewrite Hp, Hst, Hb. msimpl.
  rewrite Hm, Ht, Ha, Hc. by rewrite (new_PardotException_embedded _ _ _ _ He).
Qed.



(** ** [_make_request], path by path *)

Section MakeRequest.

Context (method : string) (url : text) (params : gmap string json).

Local Abbreviation rq s := (data_request method url params (self s)).

(** The guard fails: nothing is sent. *)
Lemma _make_request_refused s n :
  count s = Some n →
  below_limit (api_calls_limit (self s)) n = false →
  _make_request method url params s = (Raise PardotUserLimitReached, s).
Proof.
  unfold count. intros Hn Hb. unfold _make_request. munfold. msimpl.
  rewrite Hn. msimpl. by rewrite Hb.
Qed.

Lemma _make_request_no_count s :
  count s = None →
  _make_request method url params s = (Raise TypeError, s).
Proof.
  unfold count. intros Hn. unfold _make_request. munfold. msimpl.
  by rewrite Hn.
Qed.

Section Allowed.

Context (s : state) (n : Z).
Hypothesis Hcount : count s = Some n.
Hypothesis Hbelow : below_limit (api_calls_limit (self s)) n = true.

Ltac enter :=
  unfold _make_request; munfold; msimpl;
  rewrite Hcount; msimpl; rewrite Hbelow; msimpl.

Lemma _make_request_no_reply :
  next_reply s = None →
  _make_request method url params s = (Raise ConnectionError, transmitted (rq s) s).
Proof.
  unfold count in Hcount.
  intros [Hp|[ps Hp]]%next_reply_None; enter; by rewrite Hp.
Qed.

Lemma _make_request_5xx r :
  next_reply s = Some r →
  (500 <=? status_code r) = true →
  _make_request method url params s = (Raise Pardot5xxError, transmitted (rq s) s).
Proof.
  unfold count in Hcount.
  intros (ps & Hp)%next_reply_Some H5. enter. by rewrite Hp, H5.
Qed.

Lemma _make_request_4xx r :
  next_reply s = Some r →
  (500 <=? status_code r) = false →
  raises_for_status r = true →
  _make_request method url params s =
    (Raise (HTTPError (status_code r)), transmitted (rq s) s).
Proof.
  unfold count in Hcount. unfold raises_for_status.
  intros (ps & Hp)%next_reply_Some H5 H4. enter. by rewrite Hp, H5, H4.
Qed.

Lemma _make_request_not_json r :
  next_reply s = Some r →
  (500 <=? status_code r) = false →
  raises_for_status r = false →
  body r = None →
  _make_request method url params s = (Raise JSONDecodeError, transmitted (rq s) s).
Proof.
  unfold count in Hcount. unfold raises_for_status.
  intros (ps & Hp)%next_reply_Some H5 H4 Hb. enter. by rewrite Hp, H5, H4, Hb.
Qed.

Section Parsed.

Context (r : Response) (content : json).
Hypothesis Hreply : next_reply s = Some r.
Hypothesis H5xx : (500 <=? status_code r) = false.
Hypothesis Hstatus : raises_for_status r = false.
Hypothesis Hbody : body r = Some content.

Ltac parse :=
  unfold count in Hcount; unfold raises_for_status in Hstatus;
  destruct (next_reply_Some _ _ Hreply) as [ps Hp];
  enter; rewrite Hp, H5xx, Hstatus, Hbody; msimpl.

(** No embedded error: the call is counted and the body returned. *)
Lemma _make_request_success :
  error_free content = true →
  _make_request method url params s = (Ok content, counted (transmitted (rq s) s)).
Proof.
  intros (m & Hm & Ht & _)%error_free_inv. parse. by rewrite Hm, Ht.
Qed.

(** An embedded error other than 1 and 122: the body is returned as
    it is and the call is not counted. *)
Lemma _make_request_error code message :
  embedded_error content = Some (code, message) →
  Py.eq_int code 1 = false →
  Py.eq_int code 122 = false →
  _make_request method url params s = (Ok content, transmitted (rq s) s).
Proof.
  intros (Hm & Ht & attrs & Ha & Hc)%embedded_error_inv H1 H122. parse.
  by rewrite Hm, Ht, Ha, Hc, H1, H122.
Qed.

Lemma _make_request_122 code message :
  embedded_error content = Some (code, message) →
  Py.eq_int code 122 = true →
  _make_request method url params s =
    (Raise PardotUserLimitReached, transmitted (rq s) s).
Proof.
  intros (Hm & Ht & attrs & Ha & Hc)%embedded_error_inv H122. parse.
  rewrite Hm, Ht, Ha, Hc, H122.
  by rewrite (eq_int_exclusive code 122 1).
Qed.

(** Error code 1 and a [login] that raises: the exception of
    [login] is the outcome, and no second request is sent. *)
Lemma _make_request_reauth_raises code message e s2 :
  embedded_error content = Some (code, message) →
  Py.eq_int code 1 = true →
  login (transmitted (rq s) s) = (Raise e, s2) →
  _make_request method url params s = (Raise e, s2).
Proof.
  intros (Hm & Ht & attrs & Ha & Hc)%embedded_error_inv H1 Hlogin. parse.
  rewrite Hm, Ht, Ha, Hc, H1.
  unfold transmitted, data_request, auth_header in Hlogin.
  cbn in Hlogin. by rewrite Hlogin.
Qed.

(** Error code 1 and a [login] that returns: the same method, URL
    and parameters are sent once more under the new header; the
    body of whatever comes back is returned and counted. *)
Lemma _make_request_reauth_returns code message s2 :
  embedded_error content = Some (code, message) →
  Py.eq_int code 1 = true →
  login (transmitted (rq s) s) = (Ok tt, s2) →
  redis_key (self s2) = redis_key (self s) →
  _make_request method url params s =
    match next_reply s2 with
    | Some r2 =>
        match body r2 with
        | Some content2 => (Ok content2, counted (transmitted (rq s2) s2))
        | None => (Raise JSONDecodeError, transmitted (rq s2) s2)
        end
    | None => (Raise ConnectionError, transmitted (rq s2) s2)
    end.
Proof.
  intros (Hm & Ht & attrs & Ha & Hc)%embedded_error_inv H1 Hlogin Hkey. parse.
  rewrite Hm, Ht, Ha, Hc, H1.
  unfold transmitted, data_request, auth_header in Hlogin.
  cbn in Hlogin. rewrite Hlogin.
  unfold next_reply, counted, transmitted, data_request, auth_header.
  msimpl. rewrite Hkey.
  destruct (pending (world s2)) as [|[r2|] ps2]; try done.
  destruct (body r2); msimpl; try done.
  by rewrite (eq_int_exclusive code 1 122).
Qed.

End Parsed.

End Allowed.

End MakeRequest.

(** A sequence ends in its first part when that raises, and in its second
    part otherwise. *)
Lemma bind_inv {A B} (m : M A) (f : A → M B) s r s' :
  (m ≫= f) s = (r, s') →
  (∃ a s1, m s = (Ok a, s1) ∧ f a s1 = (r, s')) ∨
  (∃ e, m s = (Raise e, s') ∧ r = Raise e).
Proof.
  unfold mbind, M_bind. destruct (m s) as [[a|e] s1].
  - intros H. left. by exists a, s1.
  - intros [= <- <-]. right. by exists e.
Qed.

Create HintDb frame.

(** ** Properties kept by every call

    A relation between the state before and after is kept by a whole call
    as soon as it is kept by the effects the client has: a transport call,
    an increment of a count, an assignment to the session. *)

Section Frame.

Context (R : state → state → Prop) (allowed : Request → Prop).
Context `{!Reflexive R, !Transitive R}.

Hypothesis R_transmitted : ∀ rq s, allowed rq → R s (transmitted rq s).
Hypothesis R_incr : ∀ k s,
  R s {| self := self s;
         world := set_store (λ m, <[k := default 0 (m !! k) + 1]> m) (world s) |}.
Hypothesis R_api_version : ∀ v s,
  R s {| self := set_api_version v (self s); world := world s |}.
Hypothesis R_api_key : ∀ v s,
  R s {| self := set_api_key v (self s); world := world s |}.

Definition respects {A} (m : M A) : Prop := ∀ s r s', m s = (r, s') → R s s'.

Lemma respects_ret {A} (a : A) : respects (mret a).
Proof. intros s r s' [= <- <-]. reflexivity. Qed.

Lemma respects_raise {A} e : respects (raise (A:=A) e).
Proof. intros s r s' [= <- <-]. reflexivity. Qed.

Lemma respects_lift {A} (x : result A) : respects (lift x).
Proof. intros s r s' [= <- <-]. reflexivity. Qed.

Lemma respects_get_self : respects get_self.
Proof. intros s r s' [= <- <-]. reflexivity. Qed.

Lemma respects_bind {A B} (m : M A) (f : A → M B) :
  respects m → (∀ a, respects (f a)) → respects (m ≫= f).
Proof.
  intros Hm Hf s r s'. unfold mbind, M_bind.
  destruct (m s) as [[a|e] s1] eqn:E.
  - intros Hfa. etransitivity; [by eapply Hm | by eapply Hf].
  - intros [= <- <-]. by eapply Hm.
Qed.

Lemma respects_redis_get k : respects (redis.get k).
Proof. intros s r s' [= <- <-]. reflexivity. Qed.

Lemma respects_redis_incr k : respects (redis.incr k).
Proof. intros s r s' [= <- <-]. apply R_incr. Qed.

Lemma respects_int x : respects (int x).
Proof. destruct x; [apply respects_ret | apply respects_raise]. Qed.

Lemma respects_exchange_with rq : allowed rq → respects (requests.exchange_with rq).
Proof.
  intros Hrq s r s'. unfold requests.exchange_with.
  destruct (pending (world s)) as [|[]]; intros [= <- <-]; by apply R_transmitted.
Qed.

Lemma respects_raise_for_status r : respects (requests.raise_for_status r).
Proof.
  unfold requests.raise_for_status.
  case_match; [apply respects_raise | apply respects_ret].
Qed.

Lemma respects_json r : respects (requests.json r).
Proof.
  unfold requests.json. case_match; [apply respects_ret | apply respects_raise].
Qed.

Lemma respects_raise_new {A} x : respects (raise_new (A:=A) x).
Proof. destruct x; apply respects_raise. Qed.

Lemma respects_modify_api_version v : respects (modify_self (set_api_version v)).
Proof. intros s r s' [= <- <-]. apply R_api_version. Qed.

Lemma respects_modify_api_key v : respects (modify_self (set_api_key v)).
Proof. intros s r s' [= <- <-]. apply R_api_key. Qed.

#[local] Hint Resolve respects_ret respects_raise respects_lift
  respects_get_self respects_redis_get respects_redis_incr respects_int
  respects_raise_for_status respects_json respects_raise_new
  respects_modify_api_version respects_modify_api_key : frame.

(** Known calls are closed by their lemma; a sequence is split. *)
Ltac frame :=
  repeat first
    [ solve [auto with frame]
    | apply respects_bind; [|intros ?]
    | match goal with
      | |- respects (if ?b then _ else _) => destruct b
      end ].

Lemma respects_check_error content activity : respects (_check_error content activity).
Proof. unfold _check_error. frame. Qed.
#[local] Hint Resolve respects_check_error : frame.

Lemma respects_get_auth_header : respects _get_auth_header.
Proof. unfold _get_auth_header. frame. Qed.
#[local] Hint Resolve respects_get_auth_header : frame.

Hypothesis allowed_login : ∀ c, allowed (login_request c).

Lemma respects_login : respects login.
Proof.
  unfold login. frame. apply respects_exchange_with, allowed_login.
Qed.
#[local] Hint Resolve respects_login : frame.

Section Requests.

Context (method : string) (url : text) (params : gmap string json).
Hypothesis allowed_request : ∀ headers,
  allowed {| req_method := method; req_url := url; req_headers := headers;
             req_params := params; req_data := None |}.

Lemma respects_request headers :
  respects (requests.request method url headers params).
Proof. apply respects_exchange_with, allowed_request. Qed.

Lemma respects_make_request : respects (_make_request method url params).
Proof.
  unfold _make_request.
  pose proof respects_request. frame.
Qed.

(** The executor stops before its first transport call with a
    [TypeError] or the quota exception, or at that call with a
    [ConnectionError]; otherwise the call got a reply, and the relation
    holds from the state after it. *)
Lemma _make_request_first_exchange s r s' :
  _make_request method url params s = (r, s') →
  r = Raise TypeError ∨ r = Raise PardotUserLimitReached ∨
  r = Raise ConnectionError ∨
  ∃ r1 ps, pending (world s) = Some r1 :: ps ∧
           R (transmitted (data_request method url params (self s)) s) s'.
Proof.
  pose proof respects_request as Hrequest.
  unfold _make_request. intros H.
  apply bind_inv in H as [(c & s1 & Hc & H)|(e & Hc & _)];
    [|by unfold get_self in Hc].
  unfold get_self in Hc. injection Hc as <- <-.
  apply bind_inv in H as [(n & s1 & Hn & H)|(e & Hn & ->)]; cycle 1.
  { left. unfold redis.get, int, mbind, M_bind, mret, M_ret, raise in Hn.
    cbn in Hn. destruct (store (world s) !! redis_key (self s)); by simplify_eq. }
  assert (s1 = s) as ->.
  { unfold redis.get, int, mbind, M_bind, mret, M_ret, raise in Hn.
    cbn in Hn. destruct (store (world s) !! redis_key (self s)); by simplify_eq. }
  destruct (below_limit _ _); [|injection H as <- <-; auto].
  apply bind_inv in H as [(headers & s1 & Hh & H)|(e & Hh & _)];
    [|by unfold _get_auth_header, mbind, M_bind, get_self in Hh].
  unfold _get_auth_header, mbind, M_bind, get_self in Hh.
  injection Hh as <- <-.
  apply bind_inv in H as [(r1 & s1 & Hx & H)|(e & Hx & ->)]; cycle 1.
  { right. right. left.
    unfold requests.request, requests.exchange_with in Hx.
    destruct (pending (world s)) as [|[]]; by simplify_eq. }
  right. right. right.
  unfold requests.request, requests.exchange_with in Hx.
  destruct (pending (world s)) as [|[r1'|] ps] eqn:Hp; simplify_eq.
  exists r1, ps. split; [done|].
  revert H.
  match goal with
  | |- ?k ?st = _ → _ =>
      cut (respects k); [intros Hk H; exact (Hk _ _ _ H)|]
  end.
  cbv beta. frame.
Qed.

End Requests.

Lemma respects_attempt c :
  (∀ url headers,
     allowed {| req_method := call_method c; req_url := url;
                req_headers := headers;
                req_params := request_params (call_kwargs c);
                req_data := None |}) →
  respects (attempt c).
Proof.
  intros Hc. destruct c; simpl in *;
    [unfold describe_wrapped | unfold _fetch_wrapped];
    (apply respects_bind; [apply respects_get_self | intros self0]);
    (apply respects_bind;
       [apply respects_make_request; intros; apply Hc | intros; frame]).
Qed.

(** The decorator calls the target some number of times. *)
Lemma respects_on_exception {A} (target : M A) fuel s r s' :
  respects target → on_exception fuel target s = Some (r, s') → R s s'.
Proof.
  intros Ht. revert s. induction fuel as [|fuel IH]; intros s; [done|].
  simpl. destruct (target s) as [[a|e] s1] eqn:E.
  - intros [= <- <-]. by eapply Ht.
  - assert (R s s1) by (by eapply Ht).
    destruct (caught e); [|by intros [= <- <-]].
    destruct (is_not_retryable_pardot_exception e) as [[]|].
    + by intros [= <- <-].
    + intros Hrec. etransitivity; [done | by eapply IH].
    + by intros [= <- <-].
Qed.

Lemma respects_perform c fuel s r s' :
  (∀ url headers,
     allowed {| req_method := call_method c; req_url := url;
                req_headers := headers;
                req_params := request_params (call_kwargs c);
                req_data := None |}) →
  perform fuel c s = Some (r, s') → R s s'.
Proof.
  intros Hc Hrun. eapply (respects_on_exception (attempt c)).
  - by apply respects_attempt.
  - by destruct c.
Qed.

End Frame.

(** [_check_error] reads the body and nothing else. *)
Lemma _check_error_state content activity s r s' :
  _check_error content activity s = (r, s') → s = s'.
Proof. apply (respects_check_error eq). Qed.

(** ** What the named state changes do to the count, the log and the script *)

Section Effects.

Context (s : state).

Lemma count_transmitted rq : count (transmitted rq s) = count s.
Proof. done. Qed.

Lemma count_with_session v k : count (with_session v k s) = count s.
Proof. done. Qed.

Lemma count_counted n : count s = Some n → count (counted s) = Some (n + 1).
Proof.
  unfold count, counted. cbn. intros ->. by rewrite lookup_insert_eq.
Qed.

Lemma sent_transmitted rq : sent (world (transmitted rq s)) = sent (world s) ++ [rq].
Proof. done. Qed.

Lemma sent_counted : sent (world (counted s)) = sent (world s).
Proof. done. Qed.

Lemma sent_with_session v k : sent (world (with_session v k s)) = sent (world s).
Proof. done. Qed.

Lemma pending_transmitted rq :
  pending (world (transmitted rq s)) = tail (pending (world s)).
Proof. done. Qed.

Lemma pending_counted : pending (world (counted s)) = pending (world s).
Proof. done. Qed.

Lemma pending_with_session v k :
  pending (world (with_session v k s)) = pending (world s).
Proof. done. Qed.

Lemma next_reply_cons r ps : pending (world s) = Some r :: ps → next_reply s = Some r.
Proof. unfold next_reply. by intros ->. Qed.

End Effects.

(** ** One attempt and the decorated call *)

Section Attempt.

Context (c : call).

Local Abbreviation executor s :=
  (_make_request (call_method c) (call_url c (self s))
                 (request_params (call_kwargs c)) s).

(** Both decorated functions run the executor on their method, URL
    and parameters, and then [_check_error] on what it returned. *)
Lemma attempt_eq s :
  attempt c s =
    match executor s with
    | (Ok content, s') =>
        match _check_error content (call_activity c) s' with
        | (Ok _, s'') => (Ok content, s'')
        | (Raise e, s'') => (Raise e, s'')
        end
    | (Raise e, s') => (Raise e, s')
    end.
Proof. by destruct c as [e k|m e [[|p ps]|] k]. Qed.

Lemma attempt_raises s e s' :
  executor s = (Raise e, s') → attempt c s = (Raise e, s').
Proof. intros H. by rewrite attempt_eq, H. Qed.

Lemma attempt_returns s content s' :
  executor s = (Ok content, s') →
  error_free content = true →
  attempt c s = (Ok content, s').
Proof.
  intros H Hfree. by rewrite attempt_eq, H, (_check_error_free _ _ _ Hfree).
Qed.

Lemma attempt_embedded s content s' code message :
  executor s = (Ok content, s') →
  embedded_error content = Some (code, message) →
  attempt c s =
    (Raise (PardotException code content
              (error_text code (call_activity c) message)), s').
Proof.
  intros H Herr.
  by rewrite attempt_eq, H, (_check_error_embedded _ _ _ _ _ Herr).
Qed.

Lemma perform_attempt fuel : perform fuel c = on_exception fuel (attempt c).
Proof. by destruct c. Qed.

Lemma perform_returns fuel s a s' :
  attempt c s = (Ok a, s') → perform (S fuel) c s = Some (Ok a, s').
Proof. intros H. rewrite perform_attempt. simpl. by rewrite H. Qed.

(** An exception the decorator does not list passes through. *)
Lemma perform_passes fuel s e s' :
  attempt c s = (Raise e, s') → caught e = false →
  perform (S fuel) c s = Some (Raise e, s').
Proof. intros H Hc. rewrite perform_attempt. simpl. by rewrite H, Hc. Qed.

(** A listed exception for which [giveup] says so is re-raised. *)
Lemma perform_gives_up fuel s e s' :
  attempt c s = (Raise e, s') →
  is_not_retryable_pardot_exception e = Ok true →
  perform (S fuel) c s = Some (Raise e, s').
Proof.
  intros H Hg. rewrite perform_attempt. simpl. rewrite H, Hg.
  by destruct (caught e).
Qed.

(** A listed exception for which [giveup] says no starts the next
    attempt from the state the failed one left. *)
Lemma perform_retries fuel s e s' :
  attempt c s = (Raise e, s') →
  caught e = true →
  is_not_retryable_pardot_exception e = Ok false →
  perform (S fuel) c s = perform fuel c s'.
Proof.
  intros H Hc Hg. rewrite !perform_attempt. simpl. by rewrite H, Hc, Hg.
Qed.

End Attempt.

(** The public methods are the calls of this vocabulary. *)
Lemma perform_describe fuel endpoint kwargs :
  perform fuel (Describe endpoint kwargs) = describe fuel endpoint kwargs.
Proof. done. Qed.

Lemma perform_get fuel endpoint format_params kwargs :
  perform fuel (Fetch "get" endpoint format_params kwargs)
  = get fuel endpoint format_params kwargs.
Proof. done. Qed.

Lemma perform_post fuel endpoint format_params kwargs :
  perform fuel (Fetch "post" endpoint format_params kwargs)
  = post fuel endpoint format_params kwargs.
Proof. done. Qed.

(** ** The decorated call ends

    The decorator retries without bound, but every attempt that it
    retries has consumed a reply: on a finite script of replies the call
    ends within one attempt more than there are replies. *)

#[local] Instance shrinks_refl : Reflexive shrinks.
Proof. intros s. unfold shrinks. lia. Qed.

#[local] Instance shrinks_trans : Transitive shrinks.
Proof. intros s1 s2 s3. unfold shrinks. lia. Qed.

Lemma shrinks_transmitted rq s : shrinks s (transmitted rq s).
Proof.
  unfold shrinks, remaining. cbn. destruct (pending (world s)); simpl; lia.
Qed.

Lemma shrinks_same_pending s s' :
  pending (world s') = pending (world s) → shrinks s s'.
Proof. unfold shrinks, remaining. by intros ->. Qed.

(** An attempt that ends in an exception the decorator lists has
    consumed a reply. *)
Lemma attempt_consumes c s e s' :
  attempt c s = (Raise e, s') →
  caught e = true →
  (remaining s' < remaining s)%nat.
Proof.
  rewrite attempt_eq.
  destruct (_make_request _ _ _ s) as [r0 s0] eqn:Hexec.
  apply (_make_request_first_exchange shrinks (λ _, True)) in Hexec
    as [->|[->|[->|(r1 & ps & Hp & Hshrinks)]]];
    try done;
    try (intros; by apply shrinks_same_pending);
    try (intros; by apply shrinks_transmitted);
    try (by intros [= <- <-]).
  assert (Hlt : (remaining s0 < remaining s)%nat).
  { unfold shrinks, remaining in *. cbn in Hshrinks. rewrite Hp in *.
    simpl in *. lia. }
  destruct r0 as [content|e0]; [|by intros [= <- <-]].
  destruct (_check_error _ _ _) as [[[]|e1] s1] eqn:E;
    apply _check_error_state in E as <-; by intros [= <- <-].
Qed.

Lemma perform_terminates c fuel s :
  (remaining s < fuel)%nat → is_Some (perform fuel c s).
Proof.
  rewrite perform_attempt. revert s.
  induction fuel as [|fuel IH]; intros s Hfuel; [lia|]. simpl.
  destruct (attempt c s) as [[a|e] s'] eqn:Hattempt; [by eexists|].
  destruct (caught e) eqn:Hcaught; [|by eexists].
  destruct (is_not_retryable_pardot_exception e) as [[]|]; try by eexists.
  apply IH. pose proof (attempt_consumes _ _ _ _ Hattempt Hcaught). lia.
Qed.

(** ** The retry predicate *)

(** C6. [is_not_retryable_pardot_exception] says "retry" (returns false)
    for a 5xx error, "give up" for the quota exception, "retry" for an API
    exception whose code equals 66, and "give up" for every other API
    exception. *)
Theorem C6_retry_eligibility :
  is_not_retryable_pardot_exception Pardot5xxError = Ok false ∧
  is_not_retryable_pardot_exception PardotUserLimitReached = Ok true ∧
  (∀ response message,
     is_not_retryable_pardot_exception (PardotException (JNum 66) response message)
     = Ok false) ∧
  (∀ code response message,
     is_not_retryable_pardot_exception (PardotException code response message)
     = Ok (negb (Py.eq_int code 66))).
Proof.
  split_and!; try done.
  intros code response message. simpl. by destruct (Py.eq_int code 66).
Qed.

(** ** The daily limit *)

Lemma below_limit_reached l n : l ≤ n → below_limit (Some l) n = false.
Proof. intros. unfold below_limit. apply andb_false_iff. right. lia. Qed.

(** C2. With a daily limit configured and the count of the account-day at
    or above it, the executor raises [PardotUserLimitReached] and leaves
    the state as it was: nothing is sent, no reply is consumed.  The
    decorated calls pass the exception on. *)
Theorem C2_quota_exceeded_without_transport c method url params fuel s l n :
  api_calls_limit (self s) = Some l →
  count s = Some n →
  l ≤ n →
  _make_request method url params s = (Raise PardotUserLimitReached, s) ∧
  perform (S fuel) c s = Some (Raise PardotUserLimitReached, s).
Proof.
  intros Hl Hn Hle.
  assert (Hb : below_limit (api_calls_limit (self s)) n = false)
    by (rewrite Hl; by apply below_limit_reached).
  split; [by eapply _make_request_refused|].
  apply perform_passes; [|done].
  apply attempt_raises. by eapply _make_request_refused.
Qed.

(** ** Re-authentication *)

(** [login] makes one transport call, whatever comes of it, and leaves
    the key of the count alone. *)
Lemma login_sends_once s r s' :
  login s = (r, s') →
  sent (world s') = sent (world s) ++ [login_request (self s)] ∧
  redis_key (self s') = redis_key (self s).
Proof.
  unfold login. munfold. msimpl.
  destruct (pending (world s)) as [|[rl|] ps]; [by intros [= <- <-]| |by intros [= <- <-]].
  destruct (_ && _); [by intros [= <- <-]|].
  destruct (body rl) as [content|]; [|by intros [= <- <-]]. msimpl.
  destruct (Py.get content "err" JNull) as [m|]; [|by intros [= <- <-]].
  destruct (Py.truthy m).
  { destruct (Py.getitem content "@attributes") as [attrs|]; [|by intros [= <- <-]].
    destruct (Py.getitem attrs "err_code") as [code|]; [|by intros [= <- <-]].
    destruct (new_PardotException _ _); by intros [= <- <-]. }
  msimpl.
  destruct (Py.get content "version" JNull) as [v|]; [|by intros [= <- <-]].
  destruct (Py.getitem content "api_key") as [k|e]; by intros [= <- <-].
Qed.

Section ReauthAny.

Context (c : call) (s : state) (n : Z).
Context (r1 : Response) (content1 code1 message1 : json).

Hypothesis Hcount : count s = Some n.
Hypothesis Hbelow : below_limit (api_calls_limit (self s)) n = true.
Hypothesis Hreply : next_reply s = Some r1.
Hypothesis H1_status : is_2xx r1 = true.
Hypothesis H1_body : body r1 = Some content1.
Hypothesis H1_error : embedded_error content1 = Some (code1, message1).
Hypothesis H1_code : Py.eq_int code1 1 = true.

Local Abbreviation request self' :=
  (data_request (call_method c) (call_url c (self s))
                (request_params (call_kwargs c)) self').

(** After a first reply with code 1 an attempt has sent the request and
    one login, and then either nothing, the login having raised, or the
    request once more. *)
Lemma reauth_attempt_any r' s' :
  attempt c s = (r', s') →
  sent (world s') = sent (world s) ++ [request (self s); login_request (self s)] ∨
  ∃ self', sent (world s')
           = sent (world s) ++ [request (self s); login_request (self s);
                                request self'].
Proof.
  destruct (is_2xx_passes _ H1_status) as [Hst H5].
  rewrite attempt_eq.
  destruct (login (transmitted (request (self s)) s)) as [[[]|e] s2] eqn:Hlogin.
  - destruct (login_sends_once _ _ _ Hlogin) as [Hsent Hkey].
    rewrite (_make_request_reauth_returns _ _ _ s n Hcount Hbelow r1 content1
               Hreply H5 Hst H1_body code1 message1 s2 H1_error H1_code Hlogin Hkey).
    assert (Hsent2 : sent (world (transmitted (request (self s2)) s2))
                     = sent (world s) ++ [request (self s); login_request (self s);
                                          request (self s2)]).
    { rewrite sent_transmitted, Hsent, sent_transmitted, <- !app_assoc. done. }
    intros Hrun. right. exists (self s2). revert Hrun.
    destruct (next_reply s2) as [r2|]; [|by intros [= <- <-]].
    destruct (body r2) as [content2|]; [|by intros [= <- <-]].
    destruct (_check_error _ _ _) as [[[]|e] s''] eqn:E;
      apply _check_error_state in E as <-; by intros [= <- <-].
  - destruct (login_sends_once _ _ _ Hlogin) as [Hsent Hkey].
    rewrite (_make_request_reauth_raises _ _ _ s n Hcount Hbelow r1 content1
               Hreply H5 Hst H1_body code1 message1 e s2 H1_error H1_code Hlogin).
    intros [= <- <-]. left.
    rewrite Hsent, sent_transmitted, <- app_assoc. done.
Qed.

End ReauthAny.

Section Reauth.

Context (c : call) (s : state) (n : Z).
Context (r1 : Response) (content1 code1 message1 : json).
Context (rl : Response) (contentl key : json).
Context (rest : list (option Response)).

Hypothesis Hcount : count s = Some n.
Hypothesis Hbelow : below_limit (api_calls_limit (self s)) n = true.
Hypothesis Hpending : pending (world s) = Some r1 :: Some rl :: rest.
Hypothesis H1_status : is_2xx r1 = true.
Hypothesis H1_body : body r1 = Some content1.
Hypothesis H1_error : embedded_error content1 = Some (code1, message1).
Hypothesis H1_code : Py.eq_int code1 1 = true.
Hypothesis Hl_status : is_2xx rl = true.
Hypothesis Hl_body : body rl = Some contentl.
Hypothesis Hl_free : error_free contentl = true.
Hypothesis Hl_key : Py.getitem contentl "api_key" = Ok key.

Local Abbreviation request self' :=
  (data_request (call_method c) (call_url c (self s))
                (request_params (call_kwargs c)) self').

(** The state in which the request is sent again. *)
Local Abbreviation relogged := (reauthenticated (request (self s)) contentl key s).

Lemma relogged_login :
  login (transmitted (request (self s)) s) = (Ok tt, relogged).
Proof.
  destruct (is_2xx_passes _ Hl_status) as [Hst _].
  apply (login_returns (transmitted (request (self s)) s) rl contentl key);
    try done.
  unfold next_reply. cbn. by rewrite Hpending.
Qed.

Lemma relogged_pending : pending (world relogged) = rest.
Proof. cbn. by rewrite Hpending. Qed.

Lemma relogged_count : count relogged = Some (n + 1).
Proof.
  unfold reauthenticated. rewrite count_with_session. by apply count_counted.
Qed.

Lemma relogged_sent :
  sent (world relogged)
  = sent (world s) ++ [request (self s); login_request (self s)].
Proof. cbn. by rewrite <- app_assoc. Qed.

(** What the executor does after the first reply carried code 1. *)
Lemma reauth_executor :
  _make_request (call_method c) (call_url c (self s))
                (request_params (call_kwargs c)) s =
    match next_reply relogged with
    | Some r2 =>
        match body r2 with
        | Some content2 =>
            (Ok content2, counted (transmitted (request (self relogged)) relogged))
        | None =>
            (Raise JSONDecodeError, transmitted (request (self relogged)) relogged)
        end
    | None => (Raise ConnectionError, transmitted (request (self relogged)) relogged)
    end.
Proof.
  destruct (is_2xx_passes _ H1_status) as [Hst H5].
  eapply _make_request_reauth_returns; try done.
  - by eapply next_reply_cons.
  - apply relogged_login.
Qed.

(** One attempt sends the request, one login and the request again,
    whatever the third reply is. *)
Lemma reauth_attempt_sent r' s' :
  attempt c s = (r', s') →
  sent (world s')
  = sent (world s) ++ [request (self s); login_request (self s);
                       request (self relogged)].
Proof.
  rewrite attempt_eq, reauth_executor.
  assert (Hsent : sent (world (transmitted (request (self relogged)) relogged))
                  = sent (world s) ++ [request (self s); login_request (self s);
                                       request (self relogged)]).
  { rewrite sent_transmitted, relogged_sent, <- app_assoc. done. }
  destruct (next_reply relogged) as [r2|]; [|by intros [= <- <-]].
  destruct (body r2) as [content2|]; [|by intros [= <- <-]].
  destruct (_check_error _ _ _) as [[[]|e] s''] eqn:E;
    apply _check_error_state in E as <-; by intros [= <- <-].
Qed.

(** The second reply is free of errors: its body is returned, and the
    count is two above where it started. *)
Lemma reauth_recovered r2 payload rest' :
  rest = Some r2 :: rest' →
  body r2 = Some payload →
  error_free payload = true →
  attempt c s
  = (Ok payload, counted (transmitted (request (self relogged)) relogged)) ∧
  count (counted (transmitted (request (self relogged)) relogged)) = Some (n + 2).
Proof.
  intros Hrest H2b H2f. split.
  - eapply attempt_returns; [|done]. rewrite reauth_executor.
    rewrite (next_reply_cons relogged r2 rest'), H2b; [done|].
    by rewrite relogged_pending.
  - rewrite (count_counted _ (n + 1)); [f_equal; lia|].
    rewrite count_transmitted. apply relogged_count.
Qed.

(** The second reply carries an error as well: the attempt raises the
    API exception built from it. *)
Lemma reauth_error_again r2 content2 code2 message2 rest' :
  rest = Some r2 :: rest' →
  body r2 = Some content2 →
  embedded_error content2 = Some (code2, message2) →
  attempt c s
  = (Raise (PardotException code2 content2
              (error_text code2 (call_activity c) message2)),
     counted (transmitted (request (self relogged)) relogged)).
Proof.
  intros Hrest H2b H2e.
  eapply attempt_embedded; [|done]. rewrite reauth_executor.
  rewrite (next_reply_cons relogged r2 rest'), H2b; [done|].
  by rewrite relogged_pending.
Qed.

End Reauth.

(** C7, as the code has it.  A 2xx reply to the first sending of a
    request whose body carries error code 122 makes the call raise
    [PardotUserLimitReached], the exception of the local limit; the
    decorator does not list that class, so the call ends after this one
    request, and the count is what it was.  In the reply to the request
    sent again after a new login the code is not looked at: the executor
    counts the call and returns the body, the count being two above where
    it started, and the caller's check raises the API exception of code
    122, with which the decorated call ends.  In the reply to the new
    login code 122 makes [login] raise the API exception of code 122,
    with which the decorated call ends as well, the count being what it
    was. *)
Theorem C7_code_122_is_quota_exceeded c fuel s n :
  count s = Some n →
  below_limit (api_calls_limit (self s)) n = true →
  let rq := data_request (call_method c) (call_url c (self s))
                         (request_params (call_kwargs c)) in
  (∀ r content code message,
     next_reply s = Some r →
     is_2xx r = true →
     body r = Some content →
     embedded_error content = Some (code, message) →
     Py.eq_int code 122 = true →
     perform (S fuel) c s
     = Some (Raise PardotUserLimitReached, transmitted (rq (self s)) s) ∧
     caught PardotUserLimitReached = false ∧
     is_not_retryable_pardot_exception PardotUserLimitReached = Ok true ∧
     count (transmitted (rq (self s)) s) = Some n) ∧
  (∀ r1 content1 code1 message1 rl contentl key r2 content2 code2 message2 rest,
     pending (world s) = Some r1 :: Some rl :: Some r2 :: rest →
     is_2xx r1 = true →
     body r1 = Some content1 →
     embedded_error content1 = Some (code1, message1) →
     Py.eq_int code1 1 = true →
     is_2xx rl = true →
     body rl = Some contentl →
     error_free contentl = true →
     Py.getitem contentl "api_key" = Ok key →
     body r2 = Some content2 →
     embedded_error content2 = Some (code2, message2) →
     Py.eq_int code2 122 = true →
     let relogged := reauthenticated (rq (self s)) contentl key s in
     let final := counted (transmitted (rq (self relogged)) relogged) in
     _make_request (call_method c) (call_url c (self s))
                   (request_params (call_kwargs c)) s
     = (Ok content2, final) ∧
     perform (S fuel) c s
     = Some (Raise (PardotException code2 content2
                      (error_text code2 (call_activity c) message2)), final) ∧
     count final = Some (n + 2)) ∧
  (∀ r1 content1 code1 message1 rl contentl codel messagel rest,
     pending (world s) = Some r1 :: Some rl :: rest →
     is_2xx r1 = true →
     body r1 = Some content1 →
     embedded_error content1 = Some (code1, message1) →
     Py.eq_int code1 1 = true →
     is_2xx rl = true →
     body rl = Some contentl →
     embedded_error contentl = Some (codel, messagel) →
     Py.eq_int codel 122 = true →
     let s' := transmitted (login_request (self s)) (transmitted (rq (self s)) s) in
     perform (S fuel) c s
     = Some (Raise (PardotException codel contentl
                      (error_text codel "authenticating" messagel)), s') ∧
     count s' = Some n).
Proof.
  intros Hn Hb rq. split_and!.
  - intros r content code message Hr [Hst H5]%is_2xx_passes Hbody He H122.
    split_and!; try done.
    apply perform_passes; [|done]. apply attempt_raises.
    by eapply _make_request_122.
  - intros r1 content1 code1 message1 rl contentl key r2 content2 code2 message2
           rest Hp H1s H1b H1e H1c Hls Hlb Hlf Hlk H2b H2e H122 relogged final.
    split_and!.
    + rewrite (reauth_executor c s n r1 content1 code1 message1 rl contentl key
                 (Some r2 :: rest) Hn Hb Hp H1s H1b H1e H1c Hls Hlb Hlf Hlk).
      fold rq. fold relogged.
      rewrite (next_reply_cons relogged r2 rest), H2b; [done|].
      exact (relogged_pending c s r1 rl contentl key (Some r2 :: rest) Hp).
    + apply perform_gives_up.
      * exact (reauth_error_again c s n r1 content1 code1 message1 rl contentl key
                 (Some r2 :: rest) Hn Hb Hp H1s H1b H1e H1c Hls Hlb Hlf Hlk
                 r2 content2 code2 message2 rest eq_refl H2b H2e).
      * simpl. by rewrite (eq_int_exclusive code2 122 66).
    + unfold final. rewrite (count_counted _ (n + 1)); [f_equal; lia|].
      rewrite count_transmitted.
      exact (relogged_count c s n contentl key Hn).
  - intros r1 content1 code1 message1 rl contentl codel messagel rest
           Hp H1s H1b H1e H1c Hls Hlb Hle H122 s'.
    destruct (is_2xx_passes _ H1s) as [H1st H15].
    destruct (is_2xx_passes _ Hls) as [Hlst _].
    split; [|done].
    apply perform_gives_up.
    + apply attempt_raises.
      eapply _make_request_reauth_raises; try done.
      * by eapply next_reply_cons.
      * apply (login_raises_embedded (transmitted (rq (self s)) s) rl); try done.
        unfold next_reply. cbn. by rewrite Hp.
    + simpl. by rewrite (eq_int_exclusive codel 122 66).
Qed.

(** C1.  When the first reply to a call is 2xx and carries error code 1,
    one attempt sends the request and exactly one login, and after the
    login the request at most once more.  When the login succeeds the
    request is sent exactly once more, with the same method, URL and
    parameters (under the new header).  When the reply to that second
    sending carries code 1 as well, the call ends there: the caller gets
    the API exception, and nothing more was sent. *)
Theorem C1_one_relogin_one_retry c s n r1 content1 code1 message1 :
  count s = Some n →
  below_limit (api_calls_limit (self s)) n = true →
  next_reply s = Some r1 →
  is_2xx r1 = true →
  body r1 = Some content1 →
  embedded_error content1 = Some (code1, message1) →
  Py.eq_int code1 1 = true →
  let request := data_request (call_method c) (call_url c (self s))
                              (request_params (call_kwargs c)) in
  (∀ r' s', attempt c s = (r', s') →
     sent (world s') = sent (world s) ++ [request (self s); login_request (self s)] ∨
     ∃ self', sent (world s')
              = sent (world s) ++ [request (self s); login_request (self s);
                                   request self']) ∧
  (∀ rl contentl key rest,
     pending (world s) = Some r1 :: Some rl :: rest →
     is_2xx rl = true →
     body rl = Some contentl →
     error_free contentl = true →
     Py.getitem contentl "api_key" = Ok key →
     let relogged := reauthenticated (request (self s)) contentl key s in
     let exchanged := sent (world s) ++ [request (self s); login_request (self s);
                                         request (self relogged)] in
     (∀ r' s', attempt c s = (r', s') → sent (world s') = exchanged) ∧
     (∀ r2 content2 code2 message2 rest' fuel,
        rest = Some r2 :: rest' →
        body r2 = Some content2 →
        embedded_error content2 = Some (code2, message2) →
        Py.eq_int code2 1 = true →
        ∃ s', perform (S fuel) c s
              = Some (Raise (PardotException code2 content2
                               (error_text code2 (call_activity c) message2)), s') ∧
              sent (world s') = exchanged ∧
              pending (world s') = rest')).
Proof.
  intros Hn Hb Hr H1s H1b H1e H1c. cbv zeta. split.
  { intros r' s'. by eapply reauth_attempt_any. }
  intros rl contentl key rest Hp Hls Hlb Hlf Hlk. split.
  { intros r' s'. by eapply reauth_attempt_sent. }
  intros r2 content2 code2 message2 rest' fuel Hrest H2b H2e H2c.
  eexists. split_and!.
  - apply perform_gives_up.
    + by eapply reauth_error_again.
    + simpl. by rewrite (eq_int_exclusive code2 1 66).
  - eapply reauth_attempt_sent; try done. by eapply reauth_error_again.
  - cbn. by rewrite Hp, Hrest.
Qed.

(** C4, as the code has it.  When the first reply carries error code 1,
    the login succeeds and the reply to the second sending is free of
    errors, the caller receives that body and the count has grown by two:
    by one in [login] and by one for the second sending.  The first
    sending is not counted. *)
Theorem C4_reauth_counts_login_and_retry c fuel s n r1 content1 code1 message1
    rl contentl key r2 payload rest :
  count s = Some n →
  below_limit (api_calls_limit (self s)) n = true →
  pending (world s) = Some r1 :: Some rl :: Some r2 :: rest →
  is_2xx r1 = true →
  body r1 = Some content1 →
  embedded_error content1 = Some (code1, message1) →
  Py.eq_int code1 1 = true →
  is_2xx rl = true →
  body rl = Some contentl →
  error_free contentl = true →
  Py.getitem contentl "api_key" = Ok key →
  body r2 = Some payload →
  error_free payload = true →
  let request := data_request (call_method c) (call_url c (self s))
                              (request_params (call_kwargs c)) in
  let relogged := reauthenticated (request (self s)) contentl key s in
  let final := counted (transmitted (request (self relogged)) relogged) in
  perform (S fuel) c s = Some (Ok payload, final) ∧
  count (transmitted (request (self s)) s) = Some n ∧
  count relogged = Some (n + 1) ∧
  count final = Some (n + 2).
Proof.
  intros Hn Hb Hp H1s H1b H1e H1c Hls Hlb Hlf Hlk H2b H2f. cbv zeta.
  destruct (reauth_recovered c s n r1 content1 code1 message1 rl contentl key
              (Some r2 :: rest) Hn Hb Hp H1s H1b H1e H1c Hls Hlb Hlf Hlk
              r2 payload rest eq_refl H2b H2f) as [Hattempt Hfinal].
  split_and!; [|done| |done].
  - by apply perform_returns.
  - by eapply relogged_count.
Qed.

(** ** The count, outcome by outcome *)

Lemma new_PardotException_cases msg content :
  match new_PardotException msg content with
  | Ok e | Raise e => quota_or_status e = false
  end.
Proof.
  unfold new_PardotException.
  destruct (Py.get content "@attributes" (JObj [])) as [attrs|e] eqn:Ha.
  - destruct (Py.get attrs "err_code" JNull) as [code|e] eqn:Hc; [done|].
    by rewrite (get_raises _ _ _ _ Hc).
  - by rewrite (get_raises _ _ _ _ Ha).
Qed.

Lemma _check_error_cases content activity s :
  match _check_error content activity s with
  | (Ok _, s') => s' = s ∧ error_free content = true
  | (Raise e, s') => s' = s ∧ quota_or_status e = false
  end.
Proof.
  unfold error_free. munfold.
  destruct (Py.get content "err" JNull) as [m|e] eqn:Hm; msimpl.
  2:{ by rewrite (get_raises _ _ _ _ Hm). }
  destruct (Py.truthy m); msimpl; [|done].
  destruct (Py.getitem content "@attributes") as [attrs|e] eqn:Ha; msimpl.
  2:{ by destruct (getitem_raises _ _ _ Ha) as [-> | ->]. }
  destruct (Py.getitem attrs "err_code") as [code|e] eqn:Hc; msimpl.
  2:{ by destruct (getitem_raises _ _ _ Hc) as [-> | ->]. }
  pose proof (new_PardotException_cases
    (Format "Pardot returned error code {} while {}. Message: {}"
            [code; JStr activity; m]) content) as H.
  by destruct (new_PardotException _ _).
Qed.

(** What [login] has done to the count, by its outcome. *)
Lemma login_cases s :
  match login s with
  | (Ok _, s') =>
      count s' = Some (default 0 (count s) + 1) ∧
      redis_key (self s') = redis_key (self s)
  | (Raise e, s') => quota_or_status e = true → count s' = count s
  end.
Proof.
  unfold login. munfold. msimpl.
  destruct (pending (world s)) as [|[r|] ps]; [done| |done].
  destruct (_ && _); [done|].
  destruct (body r) as [content|] eqn:Hb; [|done]. msimpl.
  destruct (Py.get content "err" JNull) as [m|e] eqn:Hm; msimpl.
  2:{ by rewrite (get_raises _ _ _ _ Hm). }
  destruct (Py.truthy m).
  { destruct (Py.getitem content "@attributes") as [attrs|e] eqn:Ha; msimpl.
    2:{ by destruct (getitem_raises _ _ _ Ha) as [-> | ->]. }
    destruct (Py.getitem attrs "err_code") as [code|e] eqn:Hc; msimpl.
    2:{ by destruct (getitem_raises _ _ _ Hc) as [-> | ->]. }
    pose proof (new_PardotException_cases
      (Format "Pardot returned error code {} while {}. Message: {}"
              [code; JStr "authenticating"; m]) content) as H.
    destruct (new_PardotException _ _); msimpl; by rewrite H. }
  msimpl.
  destruct (Py.get content "version" JNull) as [v|e] eqn:Hv; msimpl.
  2:{ by rewrite (get_raises _ _ _ _ Hv). }
  destruct (Py.getitem content "api_key") as [k|e] eqn:Hk; msimpl.
  - unfold count. cbn. by rewrite lookup_insert_eq.
  - by destruct (getitem_raises _ _ _ Hk) as [-> | ->].
Qed.

(** What the executor has done to a count [n], by its outcome.  A body
    that came back is counted once when it answered the one request sent,
    and twice when it answered the request sent again after a new login,
    unless it is the body of the first reply with an error in it, which is
    not counted; the refusal, a 5xx and an HTTP error status leave the
    count as it was. *)
Lemma _make_request_cases method url params s n :
  count s = Some n →
  match _make_request method url params s with
  | (Ok content, s') =>
      (count s' = Some (n + 1) ∧
       sent (world s') = sent (world s) ++ [data_request method url params (self s)]) ∨
      (count s' = Some (n + 2) ∧
       ∃ self', sent (world s')
                = sent (world s) ++ [data_request method url params (self s);
                                     login_request (self s);
                                     data_request method url params self']) ∨
      (count s' = Some n ∧ error_free content = false)
  | (Raise e, s') => quota_or_status e = true → count s' = Some n
  end.
Proof.
  intros Hn. pose proof Hn as Hn'. unfold count in Hn'.
  unfold _make_request, error_free. munfold. msimpl. rewrite Hn'. msimpl.
  destruct (below_limit _ _); msimpl; [|done].
  destruct (pending (world s)) as [|[r|] ps]; msimpl; [done| |done].
  destruct (500 <=? status_code r); msimpl; [done|].
  destruct (_ && _); msimpl; [done|].
  destruct (body r) as [content|] eqn:Hb; msimpl; [|done].
  destruct (Py.get content "err" JNull) as [m|e] eqn:Hm; msimpl.
  2:{ by rewrite (get_raises _ _ _ _ Hm). }
  destruct (Py.truthy m) eqn:Ht; msimpl.
  2:{ left. unfold count. cbn. by rewrite lookup_insert_eq, Hn'. }
  destruct (Py.getitem content "@attributes") as [attrs|e] eqn:Ha; msimpl.
  2:{ by destruct (getitem_raises _ _ _ Ha) as [-> | ->]. }
  destruct (Py.getitem attrs "err_code") as [code|e] eqn:Hc; msimpl.
  2:{ by destruct (getitem_raises _ _ _ Hc) as [-> | ->]. }
  destruct (Py.eq_int code 1) eqn:H1; msimpl.
  2:{ destruct (Py.eq_int code 122); msimpl; [done|].
      right; right. by rewrite Hm, Ht. }
  rewrite (eq_int_exclusive code 1 122) by done.
  match goal with |- context [login ?s1] =>
    pose proof (login_cases s1) as Hl;
    pose proof (login_sends_once s1) as Hs;
    destruct (login s1) as [[[]|e] s2]
  end; msimpl.
  2:{ intros He. by rewrite (Hl He). }
  destruct Hl as [Hc2 Hk2]. unfold count in Hc2. cbn in Hc2, Hk2.
  rewrite Hn' in Hc2. cbn in Hc2. rewrite Hk2 in Hc2.
  destruct (Hs _ _ eq_refl) as [Hsent _]. cbn in Hsent.
  destruct (pending (world s2)) as [|[r2|] ps2]; msimpl; [done| |done].
  destruct (body r2) as [content2|]; msimpl; [|done].
  right; left. split.
  - unfold count. cbn. rewrite Hk2, lookup_insert_eq, Hc2. cbn. f_equal. lia.
  - exists s2.(self). rewrite Hsent, <- !app_assoc. done.
Qed.

Lemma attempt_cases c s n :
  count s = Some n →
  let rq self' := data_request (call_method c) (call_url c (self s))
                               (request_params (call_kwargs c)) self' in
  match attempt c s with
  | (Ok content, s') =>
      (count s' = Some (n + 1) ∧
       sent (world s') = sent (world s) ++ [rq (self s)]) ∨
      (count s' = Some (n + 2) ∧
       ∃ self', sent (world s')
                = sent (world s) ++ [rq (self s); login_request (self s); rq self'])
  | (Raise e, s') => quota_or_status e = true → count s' = Some n
  end.
Proof.
  intros Hn rq. rewrite attempt_eq.
  pose proof (_make_request_cases (call_method c) (call_url c (self s))
                (request_params (call_kwargs c)) s n Hn) as H.
  destruct (_make_request _ _ _ _) as [[content|e] s1]; [|done].
  pose proof (_check_error_cases content (call_activity c) s1) as H'.
  destruct (_check_error _ _ _) as [[[]|e] s2]; destruct H' as [-> H'].
  - destruct H as [H|[H|[_ H]]]; [by left|by right|congruence].
  - intros He. congruence.
Qed.

(** C5, as the code has it.  One execution of a call from a count [n].
    By outcome, whatever the replies: a call that returns has made the
    count [n + 1] having sent its request once, or [n + 2] having sent
    the request, one login and the request again; a call that ends in the
    refusal of the local limit, in a 5xx or in an HTTP error status has
    left the count at [n].  Path by path: refused by the local limit, a
    5xx reply, a 4xx reply and an embedded error other than 1 and 122 in
    the reply to the first sending leave the count at [n], and so does an
    embedded error in the reply to the new login; an error-free reply
    makes it [n + 1]; after a reply with error code 1 and a login that
    succeeded, the body of the reply to the second sending makes it
    [n + 2], whether it is free of errors and returned, or carries an
    embedded error, which the call then raises as its exception. *)
Theorem C5_count_by_outcome c s n :
  count s = Some n →
  let rq self' := data_request (call_method c) (call_url c (self s))
                               (request_params (call_kwargs c)) self' in
  (∀ content s', attempt c s = (Ok content, s') →
     (count s' = Some (n + 1) ∧
      sent (world s') = sent (world s) ++ [rq (self s)]) ∨
     (count s' = Some (n + 2) ∧
      ∃ self', sent (world s')
               = sent (world s) ++ [rq (self s); login_request (self s); rq self'])) ∧
  (∀ e s', attempt c s = (Raise e, s') →
     quota_or_status e = true → count s' = Some n) ∧
  (below_limit (api_calls_limit (self s)) n = false →
   attempt c s = (Raise PardotUserLimitReached, s)) ∧
  (below_limit (api_calls_limit (self s)) n = true →
   ∀ r, next_reply s = Some r →
     (500 ≤ status_code r →
      ∃ s', attempt c s = (Raise Pardot5xxError, s') ∧ count s' = Some n) ∧
     (400 ≤ status_code r < 500 →
      ∃ s', attempt c s = (Raise (HTTPError (status_code r)), s') ∧
            count s' = Some n) ∧
     (∀ content, is_2xx r = true → body r = Some content →
        (error_free content = true →
         ∃ s', attempt c s = (Ok content, s') ∧ count s' = Some (n + 1)) ∧
        (∀ code message,
           embedded_error content = Some (code, message) →
           Py.eq_int code 1 = false →
           Py.eq_int code 122 = false →
           ∃ s', attempt c s
                 = (Raise (PardotException code content
                             (error_text code (call_activity c) message)), s') ∧
                 count s' = Some n) ∧
        (∀ code message rl contentl codel messagel rest,
           embedded_error content = Some (code, message) →
           Py.eq_int code 1 = true →
           pending (world s) = Some r :: Some rl :: rest →
           is_2xx rl = true →
           body rl = Some contentl →
           embedded_error contentl = Some (codel, messagel) →
           ∃ s', attempt c s
                 = (Raise (PardotException codel contentl
                             (error_text codel "authenticating" messagel)), s') ∧
                 count s' = Some n) ∧
        (∀ code message rl contentl key r2 content2 rest,
           embedded_error content = Some (code, message) →
           Py.eq_int code 1 = true →
           pending (world s) = Some r :: Some rl :: Some r2 :: rest →
           is_2xx rl = true →
           body rl = Some contentl →
           error_free contentl = true →
           Py.getitem contentl "api_key" = Ok key →
           body r2 = Some content2 →
           (error_free content2 = true →
            ∃ s', attempt c s = (Ok content2, s') ∧ count s' = Some (n + 2)) ∧
           (∀ code2 message2,
              embedded_error content2 = Some (code2, message2) →
              ∃ s', attempt c s
                    = (Raise (PardotException code2 content2
                                (error_text code2 (call_activity c) message2)), s') ∧
                    count s' = Some (n + 2))))).
Proof.
  intros Hn rq. pose proof (attempt_cases c s n Hn) as Hcases. cbv zeta in Hcases.
  split_and!.
  { intros content s' Hrun. by rewrite Hrun in Hcases. }
  { intros e s' Hrun. by rewrite Hrun in Hcases. }
  { intros Hb. apply attempt_raises. by eapply _make_request_refused. }
  clear Hcases. intros Hb r Hr. split_and!.
  - intros H5. eexists. split.
    + apply attempt_raises. eapply _make_request_5xx; try done. lia.
    + done.
  - intros H4. eexists. split.
    + apply attempt_raises. eapply _make_request_4xx; try done.
      * lia.
      * unfold raises_for_status. lia.
    + done.
  - intros content H2xx Hbody.
    destruct (is_2xx_passes _ H2xx) as [Hst H5]. split_and!.
    + intros Hfree. eexists. split.
      * eapply attempt_returns; [|done]. by eapply _make_request_success.
      * by apply count_counted.
    + intros code message He H1 H122. eexists. split.
      * eapply attempt_embedded; [|done]. by eapply _make_request_error.
      * done.
    + intros code message rl contentl codel messagel rest He H1 Hp Hls Hlb Hle.
      destruct (is_2xx_passes _ Hls) as [Hlst _].
      eexists. split.
      * apply attempt_raises.
        eapply _make_request_reauth_raises; try done.
        apply (login_raises_embedded (transmitted (rq (self s)) s) rl); try done.
        unfold next_reply. cbn. by rewrite Hp.
      * done.
    + intros code message rl contentl key r2 content2 rest
             He H1 Hp Hls Hlb Hlf Hlk H2b.
      assert (Hfinal :
        count (counted (transmitted
                 (rq (self (reauthenticated (rq (self s)) contentl key s)))
                 (reauthenticated (rq (self s)) contentl key s)))
        = Some (n + 2)).
      { rewrite (count_counted _ (n + 1)); [f_equal; lia|].
        rewrite count_transmitted.
        exact (relogged_count c s n contentl key Hn). }
      split.
      * intros H2f. eexists. split; [|exact Hfinal].
        by eapply (reauth_recovered c s n r content code message rl contentl key
                     (Some r2 :: rest)).
      * intros code2 message2 H2e. eexists. split; [|exact Hfinal].
        by eapply (reauth_error_again c s n r content code message rl contentl key
                     (Some r2 :: rest)).
Qed.

(** ** The constructor *)

(** [__init__] creates the count when there is none, which redis refuses
    for a time to live that is not positive, stops at the limit, and logs
    in. *)
Lemma init_body_eq s :
  init_body s =
    if ttl_refused s then (Raise ResponseError, s)
    else
      let s1 := match count s with Some _ => s | None => initialised s end in
      if limit_reached (api_calls_limit (self s)) (default 0 (count s))
      then (Raise PardotUserLimitReached, s1)
      else login s1.
Proof.
  unfold init_body, ttl_refused, count. munfold. msimpl.
  destruct (store (world s) !! redis_key (self s)) as [m|]; msimpl.
  - by destruct (limit_reached _ _).
  - destruct (_ <=? 0); [done|]. msimpl. by destruct (limit_reached _ _).
Qed.

Lemma count_initialised s : count (initialised s) = Some 0.
Proof. unfold count, initialised. cbn. by rewrite lookup_insert_eq. Qed.

(** ** [login] *)


(** C9, as the code has it.  A [login] that returns has replaced both
    fields of the session by the values of the reply, [api_version] being
    ["3"] when the reply has none.  A [login] that raises anything but the
    [KeyError] for a missing ["api_key"] has changed neither. *)
Theorem C9_session_replaced_or_kept s :
  match login s with
  | (Ok _, s') =>
      ∃ r content,
        next_reply s = Some r ∧ body r = Some content ∧
        api_version (self s') = session_version content ∧
        Py.getitem content "api_key" = Ok (api_key (self s'))
  | (Raise e, s') =>
      e ≠ KeyError "api_key" →
      api_version (self s') = api_version (self s) ∧
      api_key (self s') = api_key (self s)
  end ∧
  ∀ items, Py.assoc "version" items = None →
           session_version (JObj items) = JStr "3".
Proof.
  split; [|intros items H; unfold session_version; simpl; by rewrite H].
  unfold login. munfold. msimpl. unfold next_reply.
  destruct (pending (world s)) as [|[r|] ps]; [done| |done].
  destruct (_ && _); [done|].
  destruct (body r) as [content|] eqn:Hb; [|done]. msimpl.
  destruct (Py.get content "err" JNull) as [m|]; [|done].
  destruct (Py.truthy m).
  { destruct (Py.getitem content "@attributes") as [attrs|]; [|done].
    destruct (Py.getitem attrs "err_code") as [code|]; [|done].
    by destruct (new_PardotException _ _). }
  msimpl.
  destruct (Py.get content "version" JNull) as [v|] eqn:Hv; [|done].
  destruct (Py.getitem content "api_key") as [k|e] eqn:Hk.
  - exists r, content. split_and!; try done. cbn.
    by apply session_version_get.
  - intros Hne. destruct content; simpl in Hk; try discriminate.
    destruct (Py.assoc "api_key" items); simplify_eq.
Qed.

(** ** What a constructed client keeps *)

#[local] Instance keeps_refl : Reflexive keeps.
Proof. intros s. split_and!; [done..|]. intros k n ->. exists n. split; [done|lia]. Qed.

#[local] Instance keeps_trans : Transitive keeps.
Proof.
  intros s1 s2 s3 (Hk1 & Hl1 & Hs1) (Hk2 & Hl2 & Hs2).
  split_and!; [congruence..|].
  intros k n Hn. destruct (Hs1 k n Hn) as (n' & Hn' & Hle).
  destruct (Hs2 k n' Hn') as (n'' & Hn'' & Hle'). exists n''. split; [done|lia].
Qed.

Lemma keeps_incr k s :
  keeps s {| self := self s;
             world := set_store (λ m, <[k := default 0 (m !! k) + 1]> m) (world s) |}.
Proof.
  split_and!; [done..|]. intros k' n Hn. cbn.
  destruct (decide (k = k')) as [->|Hne].
  - rewrite lookup_insert_eq, Hn. eexists. split; [done|]. simpl. lia.
  - rewrite lookup_insert_ne by done. exists n. split; [done|lia].
Qed.

Lemma keeps_same_store s s' :
  redis_key (self s') = redis_key (self s) →
  api_calls_limit (self s') = api_calls_limit (self s) →
  store (world s') = store (world s) →
  keeps s s'.
Proof.
  intros Hk Hl Hs. split_and!; [done..|]. rewrite Hs. intros k n ->.
  exists n. split; [done|lia].
Qed.

Lemma keeps_login s r s' : login s = (r, s') → keeps s s'.
Proof.
  apply (respects_login keeps (λ _, True)); try done.
  - intros; by apply keeps_same_store.
  - apply keeps_incr.
  - intros; by apply keeps_same_store.
  - intros; by apply keeps_same_store.
Qed.

Lemma keeps_perform c fuel s r s' : perform fuel c s = Some (r, s') → keeps s s'.
Proof.
  apply (respects_perform keeps (λ _, True)); try done.
  - intros; by apply keeps_same_store.
  - apply keeps_incr.
  - intros; by apply keeps_same_store.
  - intros; by apply keeps_same_store.
Qed.

Lemma keeps_count s s' : keeps s s' → is_Some (count s) → is_Some (count s').
Proof.
  intros (Hk & _ & Hs) [n Hn]. unfold count in *. rewrite Hk.
  destruct (Hs _ _ Hn) as (n' & -> & _). by eexists.
Qed.

(** A constructed client has the limit of its configuration and a count
    for its account-day. *)
Lemma constructed_inv cfg s :
  constructed cfg s →
  api_calls_limit (self s) = cfg_daily_limit cfg ∧ is_Some (count s).
Proof.
  induction 1 as [w c w' Hinit|s fuel c r s' _ [IHl IHc] Hrun
                  |s r s' _ [IHl IHc] Hlogin|s ps _ [IHl IHc]].
  - unfold __init__ in Hinit. rewrite init_body_eq in Hinit. cbv zeta in Hinit.
    set (s0 := {| self := new_instance cfg w; world := w |}) in *.
    set (s1 := match count s0 with Some _ => s0 | None => initialised s0 end) in *.
    destruct (ttl_refused s0); [done|].
    destruct (limit_reached _ _); [done|].
    destruct (login s1) as [[[]|e] s2] eqn:Hlogin; [|done].
    injection Hinit as <- <-.
    assert (H1 : api_calls_limit (self s1) = cfg_daily_limit cfg ∧ is_Some (count s1)).
    { unfold s1. destruct (count s0) eqn:Hc; [by split|].
      split; [done|]. rewrite count_initialised. by eexists. }
    destruct H1 as [Hl Hc]. pose proof (keeps_login _ _ _ Hlogin) as Hk.
    destruct s2 as [self2 world2]. split.
    + destruct Hk as (_ & Hl2 & _). cbn in *. congruence.
    + by eapply keeps_count.
  - pose proof (keeps_perform _ _ _ _ _ Hrun) as Hk. split.
    + destruct Hk as (_ & -> & _). done.
    + by eapply keeps_count.
  - pose proof (keeps_login _ _ _ Hlogin) as Hk. split.
    + destruct Hk as (_ & -> & _). done.
    + by eapply keeps_count.
  - by split.
Qed.

(** C3. A client constructed from a configuration whose [daily_limit] is
    absent or 0 refuses every request: the executor raises
    [PardotUserLimitReached] and leaves the state as it was, nothing is
    sent, and the decorated calls pass the exception on. *)
Theorem C3_no_limit_refuses_every_request cfg s :
  cfg_daily_limit cfg = None ∨ cfg_daily_limit cfg = Some 0 →
  constructed cfg s →
  (∀ method url params,
     _make_request method url params s = (Raise PardotUserLimitReached, s)) ∧
  (∀ c fuel, perform (S fuel) c s = Some (Raise PardotUserLimitReached, s)).
Proof.
  intros Hcfg [Hl [n Hn]]%constructed_inv.
  assert (Hb : below_limit (api_calls_limit (self s)) n = false).
  { rewrite Hl. by destruct Hcfg as [-> | ->]. }
  split.
  - intros. by eapply _make_request_refused.
  - intros. apply perform_passes; [|done]. apply attempt_raises.
    by eapply _make_request_refused.
Qed.

(** ** The parameters of the requests *)

Lemma request_params_kwargs kwargs k v :
  kwargs !! k = Some v → request_params kwargs !! k = Some v.
Proof. intros H. unfold request_params. by apply lookup_union_Some_l. Qed.

Lemma request_params_default kwargs k :
  kwargs !! k = None →
  request_params kwargs !! k
  = (<["output" := JStr "bulk"]> {["format" := JStr "json"]} : gmap string json) !! k.
Proof. intros H. unfold request_params. by rewrite lookup_union_r. Qed.

#[local] Instance sends_only_refl allowed : Reflexive (sends_only allowed).
Proof. intros s. exists []. by rewrite app_nil_r. Qed.

#[local] Instance sends_only_trans allowed : Transitive (sends_only allowed).
Proof.
  intros s1 s2 s3 (l1 & H1 & F1) (l2 & H2 & F2). exists (l1 ++ l2). split.
  - by rewrite H2, H1, app_assoc.
  - by apply Forall_app.
Qed.

Lemma sends_only_same_sent allowed s s' :
  sent (world s') = sent (world s) → sends_only allowed s s'.
Proof. intros H. exists []. by rewrite app_nil_r. Qed.

Lemma sends_only_transmitted (allowed : Request → Prop) rq s :
  allowed rq → sends_only allowed s (transmitted rq s).
Proof. intros H. exists [rq]. split; [done|]. by repeat constructor. Qed.

(** C10, as the code has it.  Every transport call of a [describe],
    [get] or [post] is a login or carries the parameters
    [request_params kwargs]; these hold every filter of the caller, with
    the caller's value, and [format=json] and [output=bulk] for the names
    the caller did not use. *)
Theorem C10_request_params c :
  (∀ s r s', attempt c s = (r, s') → sends_only (of_call c) s s') ∧
  (∀ fuel s r s', perform fuel c s = Some (r, s') → sends_only (of_call c) s s') ∧
  (∀ k v, call_kwargs c !! k = Some v →
          request_params (call_kwargs c) !! k = Some v) ∧
  (call_kwargs c !! "format" = None →
   request_params (call_kwargs c) !! "format" = Some (JStr "json")) ∧
  (call_kwargs c !! "output" = None →
   request_params (call_kwargs c) !! "output" = Some (JStr "bulk")).
Proof.
  assert (Hlogin : ∀ self, of_call c (login_request self)) by (left; eauto).
  assert (Hdata : ∀ url headers,
            of_call c {| req_method := call_method c; req_url := url;
                         req_headers := headers;
                         req_params := request_params (call_kwargs c);
                         req_data := None |}) by (by right).
  split_and!.
  - intros s r s'.
    apply (respects_attempt (sends_only (of_call c)) (of_call c)); try done.
    + intros. by apply sends_only_transmitted.
    + intros. by apply sends_only_same_sent.
    + intros. by apply sends_only_same_sent.
    + intros. by apply sends_only_same_sent.
  - intros fuel s r s'.
    apply (respects_perform (sends_only (of_call c)) (of_call c)); try done.
    + intros. by apply sends_only_transmitted.
    + intros. by apply sends_only_same_sent.
    + intros. by apply sends_only_same_sent.
    + intros. by apply sends_only_same_sent.
  - apply request_params_kwargs.
  - intros H. by rewrite request_params_default.
  - intros H. by rewrite request_params_default.
Qed.

(** ** The theorems on concrete runs *)

Import Example.

(** Limit 5 and five calls counted: the sixth is refused, nothing is sent. *)
Lemma C2_witness :
  perform 1 (Describe "prospect" ∅) (at_count (Some 5) 5 [Some (reply page)])
  = Some (Raise PardotUserLimitReached, at_count (Some 5) 5 [Some (reply page)]).
Proof.
  apply (C2_quota_exceeded_without_transport
           (Describe "prospect" ∅) "get" (Lit "") ∅ 0
           (at_count (Some 5) 5 [Some (reply page)]) 5 5).
  - reflexivity.
  - vm_compute; reflexivity.
  - lia.
Defined.

(** Code 122 in the reply to the first sending, and in the reply to the
    request sent again after a new login. *)
Lemma C7_witness :
  outcome (perform 1 (Fetch "get" "prospect" None ∅)
             (at_count (Some 5) 1 [Some (reply limit_met)]))
  = Some (Raise PardotUserLimitReached, Some 1) ∧
  outcome (perform 1 (Fetch "get" "prospect" None ∅)
             (at_count (Some 5) 1 [Some (reply key_expired); Some (reply logged_in);
                                   Some (reply limit_met)]))
  = Some (Raise (PardotException (JNum 122) limit_met
                   (error_text (JNum 122) "retrieving endpoint"
                      (JStr "Daily API rate limit met"))), Some 3).
Proof.
  split.
  - pose proof (C7_code_122_is_quota_exceeded
                  (Fetch "get" "prospect" None ∅) 0
                  (at_count (Some 5) 1 [Some (reply limit_met)]) 1
                  eq_refl eq_refl) as H.
    cbv zeta in H. destruct H as (H & _ & _).
    destruct (H (reply limit_met) limit_met (JNum 122)
                (JStr "Daily API rate limit met")
                eq_refl eq_refl eq_refl eq_refl eq_refl)
      as (Hrun & _ & _ & Hcount).
    unfold outcome. rewrite Hrun. cbn [fmap option_fmap option_map].
    by rewrite Hcount.
  - pose proof (C7_code_122_is_quota_exceeded
                  (Fetch "get" "prospect" None ∅) 0
                  (at_count (Some 5) 1 [Some (reply key_expired);
                                        Some (reply logged_in);
                                        Some (reply limit_met)]) 1
                  eq_refl eq_refl) as H.
    cbv zeta in H. destruct H as (_ & H & _).
    destruct (H (reply key_expired) key_expired (JNum 1)
                (JStr "Invalid API key or user key")
                (reply logged_in) logged_in (JStr "k1")
                (reply limit_met) limit_met (JNum 122)
                (JStr "Daily API rate limit met") []
                eq_refl eq_refl eq_refl eq_refl eq_refl eq_refl eq_refl eq_refl
                eq_refl eq_refl eq_refl eq_refl)
      as (_ & Hrun & Hcount).
    unfold outcome. rewrite Hrun. cbn [fmap option_fmap option_map].
    by rewrite Hcount.
Defined.

(** The key has expired, the login succeeds, the key is reported expired
    again: three transport calls, and the API exception for the caller. *)
Lemma C1_witness :
  ∃ s', perform 1 (Describe "prospect" ∅)
          (at_count (Some 5) 1 [Some (reply key_expired); Some (reply logged_in);
                                Some (reply key_expired); Some (reply page)])
        = Some (Raise (PardotException (JNum 1) key_expired
                         (error_text (JNum 1) "describing endpoint"
                            (JStr "Invalid API key or user key"))), s') ∧
        length (sent (world s')) = 3%nat ∧
        pending (world s') = [Some (reply page)].
Proof.
  pose proof (C1_one_relogin_one_retry
                (Describe "prospect" ∅)
                (at_count (Some 5) 1 [Some (reply key_expired); Some (reply logged_in);
                                      Some (reply key_expired); Some (reply page)])
                1 (reply key_expired) key_expired (JNum 1)
                (JStr "Invalid API key or user key")
                eq_refl eq_refl eq_refl eq_refl eq_refl eq_refl eq_refl) as H.
  cbv zeta in H. destruct H as [_ H].
  destruct (H (reply logged_in) logged_in (JStr "k1")
              [Some (reply key_expired); Some (reply page)]
              eq_refl eq_refl eq_refl eq_refl eq_refl) as [_ H'].
  destruct (H' (reply key_expired) key_expired (JNum 1)
               (JStr "Invalid API key or user key") [Some (reply page)] 0%nat
               eq_refl eq_refl eq_refl eq_refl)
    as (s' & Hrun & Hsent & Hpending).
  exists s'. split_and!; [exact Hrun| |exact Hpending].
  rewrite Hsent. reflexivity.
Defined.

(** The same client with a page as the third reply: the page is returned
    and the count went from 1 to 3. *)
Lemma C4_witness :
  outcome (perform 1 (Describe "prospect" ∅)
             (at_count (Some 5) 1 [Some (reply key_expired); Some (reply logged_in);
                                   Some (reply page)]))
  = Some (Ok page, Some 3).
Proof.
  pose proof (C4_reauth_counts_login_and_retry
                (Describe "prospect" ∅) 0
                (at_count (Some 5) 1 [Some (reply key_expired); Some (reply logged_in);
                                      Some (reply page)])
                1 (reply key_expired) key_expired (JNum 1)
                (JStr "Invalid API key or user key")
                (reply logged_in) logged_in (JStr "k1")
                (reply page) page []
                eq_refl eq_refl eq_refl eq_refl eq_refl eq_refl eq_refl
                eq_refl eq_refl eq_refl eq_refl eq_refl eq_refl) as H.
  cbv zeta in H. destruct H as (Hrun & _ & _ & Hcount).
  unfold outcome. rewrite Hrun. cbn [fmap option_fmap option_map].
  by rewrite Hcount.
Defined.

(** A recovered [describe]: the specification's scenario has the count
    grow by one, and it grows by two, from 1 to 3. *)
Lemma C4_counterexample :
  count (at_count (Some 5) 1 [Some (reply key_expired); Some (reply logged_in);
                              Some (reply page)]) = Some 1 ∧
  outcome (describe 1 "prospect" ∅
             (at_count (Some 5) 1 [Some (reply key_expired); Some (reply logged_in);
                                   Some (reply page)]))
  = Some (Ok page, Some 3).
Proof. split; vm_compute; reflexivity. Qed.

(** A recovered [get]: the count grows by two, from 2 to 4. *)
Lemma C5_counterexample :
  count (at_count (Some 5) 2 [Some (reply key_expired); Some (reply logged_in);
                              Some (reply page)]) = Some 2 ∧
  outcome (get 1 "prospect" None ∅
             (at_count (Some 5) 2 [Some (reply key_expired); Some (reply logged_in);
                                   Some (reply page)]))
  = Some (Ok page, Some 4).
Proof. split; vm_compute; reflexivity. Qed.

(** An error-free reply without ["api_key"]: [login] raises, with the
    version of the reply in the session and the key of before. *)
Lemma C9_counterexample :
  (login (at_count (Some 5) 1 [Some (reply no_key)])).1
  = Raise (KeyError "api_key") ∧
  api_version (self (at_count (Some 5) 1 [Some (reply no_key)])) = JStr "3" ∧
  api_version (self (login (at_count (Some 5) 1 [Some (reply no_key)])).2)
  = JNum 4 ∧
  api_key (self (at_count (Some 5) 1 [Some (reply no_key)])) = JStr "k0" ∧
  api_key (self (login (at_count (Some 5) 1 [Some (reply no_key)])).2)
  = JStr "k0".
Proof. split_and!; vm_compute; reflexivity. Qed.

(** [describe("prospect", format="xml")] sends [format=xml]. *)
Lemma C10_counterexample :
  (λ '(r, s'), (λ rq, req_params rq !! "format") <$> sent (world s'))
    <$> describe 1 "prospect" {["format" := JStr "xml"]}
          (at_count (Some 5) 1 [Some (reply page)])
  = Some [Some (JStr "xml")].
Proof. vm_compute. reflexivity. Qed.

(** Code 122 in the reply to the request sent again after a new login: the
    call ends with the API exception of code 122, not with
    [PardotUserLimitReached], and the count has gone from 1 to 3. *)
Lemma C7_counterexample :
  count (at_count (Some 5) 1 [Some (reply key_expired); Some (reply logged_in);
                              Some (reply limit_met)]) = Some 1 ∧
  outcome (describe 1 "prospect" ∅
             (at_count (Some 5) 1 [Some (reply key_expired); Some (reply logged_in);
                                   Some (reply limit_met)]))
  = Some (Raise (PardotException (JNum 122) limit_met
                   (error_text (JNum 122) "describing endpoint"
                      (JStr "Daily API rate limit met"))), Some 3).
Proof. split; vm_compute; reflexivity. Qed.


Lemma unlimited_constructed : constructed (cfg None) unlimited.
Proof.
  unfold unlimited.
  destruct (__init__ (cfg None) (fresh [Some (reply logged_in); Some (reply page)]))
    as [[c|e] w] eqn:E.
  - exact (constructed_init _ _ _ _ E).
  - vm_compute in E. discriminate.
Defined.

(** Without a daily limit the constructor logs in, and the first call of
    the client is refused with the reply to it still pending. *)
Lemma C3_witness :
  perform 1 (Describe "prospect" ∅) unlimited
  = Some (Raise PardotUserLimitReached, unlimited) ∧
  pending (world unlimited) = [Some (reply page)] ∧
  count unlimited = Some 1.
Proof.
  split_and!; [|vm_compute; reflexivity..].
  exact (proj2 (C3_no_limit_refuses_every_request (cfg None) unlimited
                  (or_introl eq_refl) unlimited_constructed)
               (Describe "prospect" ∅) 0%nat).
Defined.

(** An unknown prospect leaves the count at 1; an expired key that is
    recovered takes it from 1 to 3, and so does one after which the
    request sent again finds the prospect unknown. *)
Lemma C5_witness :
  (∃ s', attempt (Fetch "post" "prospect" None ∅)
           (at_count (Some 5) 1 [Some (reply invalid_id)])
         = (Raise (PardotException (JNum 3) invalid_id
                     (error_text (JNum 3) "retrieving endpoint"
                        (JStr "Invalid prospect ID"))), s') ∧
         count s' = Some 1) ∧
  (∃ s', attempt (Fetch "post" "prospect" None ∅)
           (at_count (Some 5) 1 [Some (reply key_expired); Some (reply logged_in);
                                 Some (reply page)])
         = (Ok page, s') ∧
         count s' = Some 3) ∧
  (∃ s', attempt (Fetch "post" "prospect" None ∅)
           (at_count (Some 5) 1 [Some (reply key_expired); Some (reply logged_in);
                                 Some (reply invalid_id)])
         = (Raise (PardotException (JNum 3) invalid_id
                     (error_text (JNum 3) "retrieving endpoint"
                        (JStr "Invalid prospect ID"))), s') ∧
         count s' = Some 3).
Proof.
  split_and!.
  - destruct (C5_count_by_outcome (Fetch "post" "prospect" None ∅)
                (at_count (Some 5) 1 [Some (reply invalid_id)]) 1 eq_refl)
      as (_ & _ & _ & H).
    destruct (H eq_refl (reply invalid_id) eq_refl) as (_ & _ & H').
    destruct (H' invalid_id eq_refl eq_refl) as (_ & Herror & _).
    exact (Herror (JNum 3) (JStr "Invalid prospect ID") eq_refl eq_refl eq_refl).
  - destruct (C5_count_by_outcome (Fetch "post" "prospect" None ∅)
                (at_count (Some 5) 1 [Some (reply key_expired); Some (reply logged_in);
                                      Some (reply page)]) 1 eq_refl)
      as (_ & _ & _ & H).
    destruct (H eq_refl (reply key_expired) eq_refl) as (_ & _ & H').
    destruct (H' key_expired eq_refl eq_refl) as (_ & _ & _ & Hagain).
    destruct (Hagain (JNum 1) (JStr "Invalid API key or user key")
                (reply logged_in) logged_in (JStr "k1") (reply page) page []
                eq_refl eq_refl eq_refl eq_refl eq_refl eq_refl eq_refl eq_refl)
      as [Hrecovered _].
    exact (Hrecovered eq_refl).
  - destruct (C5_count_by_outcome (Fetch "post" "prospect" None ∅)
                (at_count (Some 5) 1 [Some (reply key_expired); Some (reply logged_in);
                                      Some (reply invalid_id)]) 1 eq_refl)
      as (_ & _ & _ & H).
    destruct (H eq_refl (reply key_expired) eq_refl) as (_ & _ & H').
    destruct (H' key_expired eq_refl eq_refl) as (_ & _ & _ & Hagain).
    destruct (Hagain (JNum 1) (JStr "Invalid API key or user key")
                (reply logged_in) logged_in (JStr "k1") (reply invalid_id)
                invalid_id []
                eq_refl eq_refl eq_refl eq_refl eq_refl eq_refl eq_refl eq_refl)
      as [_ Herror].
    exact (Herror (JNum 3) (JStr "Invalid prospect ID") eq_refl).
Defined.


(** A 401 for the login leaves the session as it was. *)
Lemma C9_witness :
  HTTPError 401 ≠ KeyError "api_key" ∧
  api_version
    (self (login (at_count (Some 5) 1
                    [Some {| status_code := 401;
                             body := Some invalid_credentials |}])).2)
  = JStr "3" ∧
  api_key
    (self (login (at_count (Some 5) 1
                    [Some {| status_code := 401;
                             body := Some invalid_credentials |}])).2)
  = JStr "k0".
Proof.
  split; [discriminate|].
  pose proof (proj1 (C9_session_replaced_or_kept
                       (at_count (Some 5) 1
                          [Some {| status_code := 401;
                                   body := Some invalid_credentials |}]))) as H.
  apply H. discriminate.
Defined.

(** A filter of the caller travels with the two fixed parameters. *)
Lemma C10_witness :
  let c := Fetch "get" "prospect" None {["id_greater_than" := JNum 100]} in
  let s := at_count (Some 5) 1 [Some (reply page)] in
  sends_only (of_call c) s (attempt c s).2 ∧
  request_params (call_kwargs c) !! "id_greater_than" = Some (JNum 100) ∧
  request_params (call_kwargs c) !! "format" = Some (JStr "json") ∧
  request_params (call_kwargs c) !! "output" = Some (JStr "bulk").
Proof.
  intros c s.
  destruct (C10_request_params c) as (Hattempt & _ & Hkwargs & Hformat & Houtput).
  split_and!.
  - apply (Hattempt s (attempt c s).1). by destruct (attempt c s).
  - by apply Hkwargs.
  - by apply Hformat.
  - by apply Houtput.
Defined.

(** * Further properties of the client *)

(** ** [_check_error] and [PardotException] *)

(** X1. [_check_error] returns exactly for a dict whose ["err"] is absent
    or falsy; in every case it leaves the state as it was. *)
Theorem X1_check_error_passes_iff content activity s :
  (_check_error content activity s).2 = s ∧
  ((_check_error content activity s).1 = Ok tt ↔ error_free content = true).
Proof.
  split.
  { destruct (_check_error content activity s) as [r s'] eqn:E.
    by apply _check_error_state in E. }
  split.
  - unfold _check_error, error_free. munfold.
    destruct (Py.get content "err" JNull) as [m|]; [|done].
    destruct (Py.truthy m); [|done].
    destruct (Py.getitem content "@attributes") as [attrs|]; [|done].
    destruct (Py.getitem attrs "err_code") as [code|]; [|done].
    by destruct (new_PardotException _ content).
  - intros H. by rewrite (_check_error_free _ _ _ H).
Qed.

(** X2. Whenever [_check_error] raises a [PardotException], the exception
    holds the body it was given, its code is the body's
    ["@attributes"]["err_code"], and its message is formatted from that
    code, the activity and the body's ["err"]. *)
Theorem X2_check_error_exception content activity s code response message s' :
  _check_error content activity s = (Raise (PardotException code response message), s') →
  response = content ∧
  ∃ err, embedded_error content = Some (code, err) ∧
         message = error_text code activity err.
Proof.
  unfold _check_error, embedded_error. munfold.
  destruct (Py.get content "err" JNull) as [m|e] eqn:Hm;
    [|apply get_raises in Hm as ->; done].
  destruct (Py.truthy m) eqn:Ht; [|done].
  destruct (Py.getitem content "@attributes") as [attrs|e] eqn:Ha;
    [|apply getitem_raises in Ha as [-> | ->]; done].
  destruct (Py.getitem attrs "err_code") as [code'|e] eqn:Hc;
    [|apply getitem_raises in Hc as [-> | ->]; done].
  assert (He : embedded_error content = Some (code', m)).
  { unfold embedded_error. by rewrite Hm, Ht, Ha, Hc. }
  rewrite (new_PardotException_embedded _ _ _ _ He).
  intros [= <- <- <- <-]. split; [done|]. by exists m.
Qed.

(** X3. A body with a truthy ["err"] but no ["@attributes"] makes
    [_check_error] raise [KeyError] for that key, one whose attributes
    hold no ["err_code"] a [KeyError] for that one, and a body that is no
    dict an [AttributeError]: none of them becomes a [PardotException]. *)
Theorem X3_check_error_malformed activity s :
  (∀ items err,
     Py.assoc "err" items = Some err → Py.truthy err = true →
     Py.assoc "@attributes" items = None →
     _check_error (JObj items) activity s = (Raise (KeyError "@attributes"), s)) ∧
  (∀ items err attrs,
     Py.assoc "err" items = Some err → Py.truthy err = true →
     Py.assoc "@attributes" items = Some (JObj attrs) →
     Py.assoc "err_code" attrs = None →
     _check_error (JObj items) activity s = (Raise (KeyError "err_code"), s)) ∧
  (∀ content,
     match content with
     | JObj _ => True
     | _ => _check_error content activity s = (Raise AttributeError, s)
     end).
Proof.
  split_and!.
  - intros items err He Ht Ha. unfold _check_error. munfold. simpl.
    by rewrite He, Ht, Ha.
  - intros items err attrs He Ht Ha Hc. unfold _check_error. munfold. simpl.
    rewrite He, Ht, Ha. simpl. by rewrite Hc.
  - by intros [].
Qed.

(** X4. [PardotException(message, body)] for a body without
    ["@attributes"] has the code [None], and the retry predicate gives
    such an exception up; for a body that is no dict the constructor
    itself raises [AttributeError]. *)
Theorem X4_exception_without_attributes message :
  (∀ items,
     Py.assoc "@attributes" items = None →
     new_PardotException message (JObj items)
     = Ok (PardotException JNull (JObj items) message) ∧
     is_not_retryable_pardot_exception (PardotException JNull (JObj items) message)
     = Ok true) ∧
  (∀ content,
     match content with
     | JObj _ => True
     | _ => new_PardotException message content = Raise AttributeError
     end).
Proof.
  split.
  - intros items Ha. split; [|done]. unfold new_PardotException. simpl.
    by rewrite Ha.
  - by intros [].
Qed.

(** ** What the decorator retries and what it does not *)

(** An error-free 2xx reply: the call returns its body and is counted. *)
Lemma perform_success c fuel s n r content :
  count s = Some n →
  below_limit (api_calls_limit (self s)) n = true →
  next_reply s = Some r →
  is_2xx r = true →
  body r = Some content →
  error_free content = true →
  perform (S fuel) c s
  = Some (Ok content,
          counted (transmitted (data_request (call_method c) (call_url c (self s))
                                  (request_params (call_kwargs c)) (self s)) s)).
Proof.
  intros Hn Hb Hr [Hst H5]%is_2xx_passes Hbody Hfree.
  apply perform_returns. eapply attempt_returns; [|done].
  by eapply _make_request_success.
Qed.

(** X5. A client that finds no count for its account-day under its key
    (the key was never set for this day, or is gone) cannot make a
    request: [int(None)] raises [TypeError] before anything is sent, and
    the decorator passes it on. *)
Theorem X5_no_count_is_type_error c fuel s :
  count s = None →
  (∀ method url params,
     _make_request method url params s = (Raise TypeError, s)) ∧
  perform (S fuel) c s = Some (Raise TypeError, s).
Proof.
  intros Hn. split.
  - intros. by apply _make_request_no_count.
  - apply perform_passes; [|done]. apply attempt_raises.
    by apply _make_request_no_count.
Qed.

(** X6. A transport call that gets no reply ends the call with the
    connection error: the request was sent once, it is not sent again,
    and the count is as before. *)
Theorem X6_connection_failure_not_retried c fuel s n :
  count s = Some n →
  below_limit (api_calls_limit (self s)) n = true →
  next_reply s = None →
  let rq := data_request (call_method c) (call_url c (self s))
                         (request_params (call_kwargs c)) (self s) in
  perform (S fuel) c s = Some (Raise ConnectionError, transmitted rq s) ∧
  sent (world (transmitted rq s)) = sent (world s) ++ [rq] ∧
  count (transmitted rq s) = Some n.
Proof.
  intros Hn Hb Hr rq. split_and!; [|done..].
  apply perform_passes; [|done]. apply attempt_raises.
  by eapply _make_request_no_reply.
Qed.

(** X7. A reply with status 500 or above makes the decorator call again:
    the next attempt starts from the same session and count, with one
    reply consumed.  When the reply after it is an error-free 2xx, the
    call returns that body, has sent the same request twice and is
    counted once. *)
Theorem X7_5xx_is_retried c fuel s n r :
  count s = Some n →
  below_limit (api_calls_limit (self s)) n = true →
  next_reply s = Some r →
  500 ≤ status_code r →
  let rq := data_request (call_method c) (call_url c (self s))
                         (request_params (call_kwargs c)) (self s) in
  perform (S fuel) c s = perform fuel c (transmitted rq s) ∧
  (∀ r2 content rest,
     pending (world s) = Some r :: Some r2 :: rest →
     is_2xx r2 = true →
     body r2 = Some content →
     error_free content = true →
     perform (S (S fuel)) c s
     = Some (Ok content, counted (transmitted rq (transmitted rq s))) ∧
     sent (world (counted (transmitted rq (transmitted rq s))))
     = sent (world s) ++ [rq; rq] ∧
     count (counted (transmitted rq (transmitted rq s))) = Some (n + 1)).
Proof.
  intros Hn Hb Hr H5 rq.
  assert (Hretry : perform (S fuel) c s = perform fuel c (transmitted rq s)).
  { apply (perform_retries c fuel s Pardot5xxError); [|done..].
    apply attempt_raises. eapply _make_request_5xx; try done. lia. }
  split; [done|].
  intros r2 content rest Hp H2 Hbody Hfree.
  assert (Hretry2 : perform (S (S fuel)) c s = perform (S fuel) c (transmitted rq s)).
  { apply (perform_retries c (S fuel) s Pardot5xxError); [|done..].
    apply attempt_raises. eapply _make_request_5xx; try done. lia. }
  split_and!.
  - rewrite Hretry2.
    apply (perform_success c fuel (transmitted rq s) n r2 content); try done.
    unfold next_reply. cbn. by rewrite Hp.
  - cbn. by rewrite <- app_assoc.
  - by apply count_counted.
Qed.

(** X8. A 2xx reply whose body carries error code 66 makes the decorator
    call again, like a 5xx: nothing is counted and the next attempt
    starts with one reply consumed. *)
Theorem X8_code_66_is_retried c fuel s n r content code message :
  count s = Some n →
  below_limit (api_calls_limit (self s)) n = true →
  next_reply s = Some r →
  is_2xx r = true →
  body r = Some content →
  embedded_error content = Some (code, message) →
  Py.eq_int code 66 = true →
  let rq := data_request (call_method c) (call_url c (self s))
                         (request_params (call_kwargs c)) (self s) in
  perform (S fuel) c s = perform fuel c (transmitted rq s) ∧
  count (transmitted rq s) = Some n.
Proof.
  intros Hn Hb Hr [Hst H5]%is_2xx_passes Hbody He H66 rq. split; [|done].
  eapply perform_retries.
  - eapply attempt_embedded; [|done].
    eapply _make_request_error; try done.
    + by apply (eq_int_exclusive code 66 1).
    + by apply (eq_int_exclusive code 66 122).
  - done.
  - simpl. by rewrite H66.
Qed.

(** X9. A reply with a status from 400 to 499 ends the call with the HTTP
    error of that status: one request, no retry, nothing counted. *)
Theorem X9_4xx_not_retried c fuel s n r :
  count s = Some n →
  below_limit (api_calls_limit (self s)) n = true →
  next_reply s = Some r →
  400 ≤ status_code r < 500 →
  let rq := data_request (call_method c) (call_url c (self s))
                         (request_params (call_kwargs c)) (self s) in
  perform (S fuel) c s = Some (Raise (HTTPError (status_code r)), transmitted rq s) ∧
  count (transmitted rq s) = Some n.
Proof.
  intros Hn Hb Hr H4 rq. split; [|done].
  apply perform_passes; [|done]. apply attempt_raises.
  eapply _make_request_4xx; try done.
  - lia.
  - unfold raises_for_status. lia.
Qed.

(** X10. A 2xx reply with an embedded error whose code is none of 1, 66
    and 122 ends the call with the [PardotException] of that code: one
    request, no retry, nothing counted. *)
Theorem X10_other_error_surfaces c fuel s n r content code message :
  count s = Some n →
  below_limit (api_calls_limit (self s)) n = true →
  next_reply s = Some r →
  is_2xx r = true →
  body r = Some content →
  embedded_error content = Some (code, message) →
  Py.eq_int code 1 = false →
  Py.eq_int code 66 = false →
  Py.eq_int code 122 = false →
  let rq := data_request (call_method c) (call_url c (self s))
                         (request_params (call_kwargs c)) (self s) in
  perform (S fuel) c s
  = Some (Raise (PardotException code content
                   (error_text code (call_activity c) message)),
          transmitted rq s) ∧
  count (transmitted rq s) = Some n.
Proof.
  intros Hn Hb Hr [Hst H5]%is_2xx_passes Hbody He H1 H66 H122 rq. split; [|done].
  apply perform_gives_up.
  - eapply attempt_embedded; [|done]. by eapply _make_request_error.
  - simpl. by rewrite H66.
Qed.

(** ** Inside a re-authentication *)

(** X11. The status of the reply to the re-sent request is not looked at.
    A reply with status 500 or above and an error-free JSON body raises
    [Pardot5xxError] when it answers the first sending of a call; when it
    answers the sending after a re-login, its body is returned to the
    caller and the call is counted. *)
Theorem X11_status_of_second_reply_ignored r payload :
  500 ≤ status_code r →
  body r = Some payload →
  error_free payload = true →
  (∀ c s n,
     count s = Some n →
     below_limit (api_calls_limit (self s)) n = true →
     next_reply s = Some r →
     attempt c s
     = (Raise Pardot5xxError,
        transmitted (data_request (call_method c) (call_url c (self s))
                       (request_params (call_kwargs c)) (self s)) s)) ∧
  (∀ c fuel s n r1 content1 code1 message1 rl contentl key rest,
     count s = Some n →
     below_limit (api_calls_limit (self s)) n = true →
     pending (world s) = Some r1 :: Some rl :: Some r :: rest →
     is_2xx r1 = true →
     body r1 = Some content1 →
     embedded_error content1 = Some (code1, message1) →
     Py.eq_int code1 1 = true →
     is_2xx rl = true →
     body rl = Some contentl →
     error_free contentl = true →
     Py.getitem contentl "api_key" = Ok key →
     ∃ s', perform (S fuel) c s = Some (Ok payload, s') ∧
           count s' = Some (n + 2)).
Proof.
  intros H5 Hbody Hfree. split.
  - intros c s n Hn Hb Hr. apply attempt_raises.
    eapply _make_request_5xx; try done. lia.
  - intros c fuel s n r1 content1 code1 message1 rl contentl key rest
           Hn Hb Hp H1s H1b H1e H1c Hls Hlb Hlf Hlk.
    destruct (reauth_recovered c s n r1 content1 code1 message1 rl contentl key
                (Some r :: rest) Hn Hb Hp H1s H1b H1e H1c Hls Hlb Hlf Hlk
                r payload rest eq_refl Hbody Hfree) as [Hattempt Hfinal].
    eexists. split; [|exact Hfinal]. by apply perform_returns.
Qed.

(** X12. After a re-login the error code of the first reply is the one
    that is compared with 122, not the code of the second reply.  An
    embedded error in the second reply, code 122 included, reaches the
    caller as a [PardotException] with the call counted twice; only code
    66 makes the decorator start the call again. *)
Theorem X12_error_in_second_reply c fuel s n r1 content1 code1 message1
    rl contentl key r2 content2 code2 message2 rest :
  count s = Some n →
  below_limit (api_calls_limit (self s)) n = true →
  pending (world s) = Some r1 :: Some rl :: Some r2 :: rest →
  is_2xx r1 = true →
  body r1 = Some content1 →
  embedded_error content1 = Some (code1, message1) →
  Py.eq_int code1 1 = true →
  is_2xx rl = true →
  body rl = Some contentl →
  error_free contentl = true →
  Py.getitem contentl "api_key" = Ok key →
  body r2 = Some content2 →
  embedded_error content2 = Some (code2, message2) →
  let request := data_request (call_method c) (call_url c (self s))
                              (request_params (call_kwargs c)) in
  let relogged := reauthenticated (request (self s)) contentl key s in
  let final := counted (transmitted (request (self relogged)) relogged) in
  count final = Some (n + 2) ∧
  (Py.eq_int code2 66 = false →
   perform (S fuel) c s
   = Some (Raise (PardotException code2 content2
                    (error_text code2 (call_activity c) message2)), final)) ∧
  (Py.eq_int code2 66 = true →
   perform (S fuel) c s = perform fuel c final).
Proof.
  intros Hn Hb Hp H1s H1b H1e H1c Hls Hlb Hlf Hlk H2b H2e. cbv zeta.
  pose proof (reauth_error_again c s n r1 content1 code1 message1 rl contentl key
                (Some r2 :: rest) Hn Hb Hp H1s H1b H1e H1c Hls Hlb Hlf Hlk
                r2 content2 code2 message2 rest eq_refl H2b H2e) as Hattempt.
  split_and!.
  - rewrite (count_counted _ (n + 1)); [f_equal; lia|].
    rewrite count_transmitted. by eapply relogged_count.
  - intros H66. apply perform_gives_up; [done|]. simpl. by rewrite H66.
  - intros H66. eapply perform_retries; [done..|]. simpl. by rewrite H66.
Qed.

(** X13. A re-login that is answered with a 4xx or 5xx status ends the
    call with [HTTPError], also for a 5xx: the decorator does not retry
    it, the request is not sent again, and count and session are as
    before. *)
Theorem X13_relogin_status_error c fuel s n r1 content1 code1 message1 rl rest :
  count s = Some n →
  below_limit (api_calls_limit (self s)) n = true →
  pending (world s) = Some r1 :: Some rl :: rest →
  is_2xx r1 = true →
  body r1 = Some content1 →
  embedded_error content1 = Some (code1, message1) →
  Py.eq_int code1 1 = true →
  400 ≤ status_code rl < 600 →
  let rq := data_request (call_method c) (call_url c (self s))
                         (request_params (call_kwargs c)) (self s) in
  let s' := transmitted (login_request (self s)) (transmitted rq s) in
  perform (S fuel) c s = Some (Raise (HTTPError (status_code rl)), s') ∧
  sent (world s') = sent (world s) ++ [rq; login_request (self s)] ∧
  count s' = Some n ∧
  self s' = self s.
Proof.
  intros Hn Hb Hp H1s H1b H1e H1c Hl rq s'.
  destruct (is_2xx_passes _ H1s) as [Hst H5].
  split_and!; [|cbn; by rewrite <- app_assoc|done..].
  apply perform_passes; [|done]. apply attempt_raises.
  eapply _make_request_reauth_raises; try done.
  - by eapply next_reply_cons.
  - apply (login_raises_status (transmitted rq s) rl).
    + unfold next_reply. cbn. by rewrite Hp.
    + unfold raises_for_status. lia.
Qed.

(** X14. An embedded error in the reply to a re-login ends the call with
    its [PardotException], not counted and with nothing sent after the
    login, unless its code is 66: then the decorator starts the call
    again, from the old session. *)
Theorem X14_relogin_embedded_error c fuel s n r1 content1 code1 message1
    rl contentl codel messagel rest :
  count s = Some n →
  below_limit (api_calls_limit (self s)) n = true →
  pending (world s) = Some r1 :: Some rl :: rest →
  is_2xx r1 = true →
  body r1 = Some content1 →
  embedded_error content1 = Some (code1, message1) →
  Py.eq_int code1 1 = true →
  is_2xx rl = true →
  body rl = Some contentl →
  embedded_error contentl = Some (codel, messagel) →
  let rq := data_request (call_method c) (call_url c (self s))
                         (request_params (call_kwargs c)) (self s) in
  let s' := transmitted (login_request (self s)) (transmitted rq s) in
  count s' = Some n ∧
  self s' = self s ∧
  (Py.eq_int codel 66 = false →
   perform (S fuel) c s
   = Some (Raise (PardotException codel contentl
                    (error_text codel "authenticating" messagel)), s')) ∧
  (Py.eq_int codel 66 = true →
   perform (S fuel) c s = perform fuel c s').
Proof.
  intros Hn Hb Hp H1s H1b H1e H1c Hls Hlb Hle rq s'.
  destruct (is_2xx_passes _ H1s) as [Hst H5].
  destruct (is_2xx_passes _ Hls) as [Hlst _].
  assert (Hattempt : attempt c s
            = (Raise (PardotException codel contentl
                        (error_text codel "authenticating" messagel)), s')).
  { apply attempt_raises.
    eapply _make_request_reauth_raises; try done.
    - by eapply next_reply_cons.
    - apply (login_raises_embedded (transmitted rq s) rl); try done.
      unfold next_reply. cbn. by rewrite Hp. }
  split_and!; [done..| |].
  - intros H66. apply perform_gives_up; [done|]. simpl. by rewrite H66.
  - intros H66. eapply perform_retries; [done..|]. simpl. by rewrite H66.
Qed.

(** X15. When the request sent after a successful re-login gets no reply
    or a body that is not JSON, the call ends with that error and is not
    retried; the count stays one above where it was, for the login, and
    the session is the new one. *)
Theorem X15_second_sending_fails c fuel s n r1 content1 code1 message1
    rl contentl key rest :
  count s = Some n →
  below_limit (api_calls_limit (self s)) n = true →
  pending (world s) = Some r1 :: Some rl :: rest →
  is_2xx r1 = true →
  body r1 = Some content1 →
  embedded_error content1 = Some (code1, message1) →
  Py.eq_int code1 1 = true →
  is_2xx rl = true →
  body rl = Some contentl →
  error_free contentl = true →
  Py.getitem contentl "api_key" = Ok key →
  let request := data_request (call_method c) (call_url c (self s))
                              (request_params (call_kwargs c)) in
  let relogged := reauthenticated (request (self s)) contentl key s in
  let s' := transmitted (request (self relogged)) relogged in
  count s' = Some (n + 1) ∧
  api_key (self s') = key ∧
  (match rest with Some _ :: _ => False | _ => True end →
   perform (S fuel) c s = Some (Raise ConnectionError, s')) ∧
  (∀ r2 rest', rest = Some r2 :: rest' → body r2 = None →
   perform (S fuel) c s = Some (Raise JSONDecodeError, s')).
Proof.
  intros Hn Hb Hp H1s H1b H1e H1c Hls Hlb Hlf Hlk. cbv zeta.
  pose proof (reauth_executor c s n r1 content1 code1 message1 rl contentl key
                rest Hn Hb Hp H1s H1b H1e H1c Hls Hlb Hlf Hlk) as Hexec.
  pose proof (relogged_pending c s r1 rl contentl key rest Hp) as Hrest.
  split_and!.
  - rewrite count_transmitted. by eapply relogged_count.
  - done.
  - intros Hnone. apply perform_passes; [|done]. apply attempt_raises.
    rewrite Hexec. unfold next_reply. rewrite Hrest.
    by destruct rest as [|[]].
  - intros r2 rest' -> H2b. apply perform_passes; [|done]. apply attempt_raises.
    rewrite Hexec. unfold next_reply. rewrite Hrest. by rewrite H2b.
Qed.

(** X16. In a call that re-authenticates, the first sending is authorised
    with the [api_key] the client had and the second with the one of the
    login reply, both with the [user_key] of the configuration.  The
    second sending goes to the URL of the first, formatted with the
    [api_version] of before the login, whichever version the reply
    brought; the session the call leaves is the new one. *)
Theorem X16_headers_of_a_reauthenticated_call c s n r1 content1 code1 message1
    rl contentl key rest r' s' :
  count s = Some n →
  below_limit (api_calls_limit (self s)) n = true →
  pending (world s) = Some r1 :: Some rl :: rest →
  is_2xx r1 = true →
  body r1 = Some content1 →
  embedded_error content1 = Some (code1, message1) →
  Py.eq_int code1 1 = true →
  is_2xx rl = true →
  body rl = Some contentl →
  error_free contentl = true →
  Py.getitem contentl "api_key" = Ok key →
  attempt c s = (r', s') →
  let header k := [("Authorization",
                    Format "Pardot api_key={}, user_key={}"
                           [k; JStr (user_key (creds (self s)))])] in
  let sending k := {| req_method := call_method c; req_url := call_url c (self s);
                      req_headers := header k;
                      req_params := request_params (call_kwargs c);
                      req_data := None |} in
  sent (world s')
  = sent (world s) ++ [sending (api_key (self s)); login_request (self s); sending key] ∧
  api_key (self s') = key ∧
  api_version (self s') = session_version contentl.
Proof.
  intros Hn Hb Hp H1s H1b H1e H1c Hls Hlb Hlf Hlk Hattempt. cbv zeta.
  split.
  { by rewrite (reauth_attempt_sent c s n r1 content1 code1 message1 rl contentl key
                  rest Hn Hb Hp H1s H1b H1e H1c Hls Hlb Hlf Hlk r' s' Hattempt). }
  revert Hattempt. rewrite attempt_eq.
  rewrite (reauth_executor c s n r1 content1 code1 message1 rl contentl key
             rest Hn Hb Hp H1s H1b H1e H1c Hls Hlb Hlf Hlk).
  destruct (next_reply _) as [r2|]; [|by intros [= <- <-]].
  destruct (body r2) as [content2|]; [|by intros [= <- <-]].
  destruct (_check_error _ _ _) as [[[]|e] s''] eqn:E;
    apply _check_error_state in E as <-; by intros [= <- <-].
Qed.

(** ** [login] and the constructor *)

Lemma count_counted_default s :
  count (counted s) = Some (default 0 (count s) + 1).
Proof. unfold count, counted. cbn. by rewrite lookup_insert_eq. Qed.

(** X17. [login] does not look at the daily limit.  For a reply whose
    status is not from 400 to 599 and whose body is error-free and holds
    an ["api_key"], it returns with the session replaced and the count
    one higher, whatever the limit; when there was no count, the count
    is 1 afterwards. *)
Theorem X17_login_counts_itself s r content key :
  next_reply s = Some r →
  ¬ (400 ≤ status_code r < 600) →
  body r = Some content →
  error_free content = true →
  Py.getitem content "api_key" = Ok key →
  ∃ s', login s = (Ok tt, s') ∧
        count s' = Some (default 0 (count s) + 1) ∧
        api_key (self s') = key ∧
        api_version (self s') = session_version content ∧
        sent (world s') = sent (world s) ++ [login_request (self s)].
Proof.
  intros Hr Hst Hbody Hfree Hkey. eexists. split_and!.
  - eapply login_returns; try done. unfold raises_for_status. lia.
  - rewrite count_with_session.
    apply (count_counted_default (transmitted (login_request (self s)) s)).
  - done.
  - done.
  - done.
Qed.


(** X19. [Client(config)] with a non-zero limit and a stored count at or
    above it raises [PardotUserLimitReached] without logging in: nothing
    is sent and the world is as it was. *)
Theorem X19_constructor_at_limit cfg w l n :
  cfg_daily_limit cfg = Some l →
  l ≠ 0 →
  store w !! redis_key (new_instance cfg w) = Some n →
  l ≤ n →
  __init__ cfg w = (Raise PardotUserLimitReached, w).
Proof.
  intros Hl Hl0 Hn Hle. unfold __init__. rewrite init_body_eq. cbv zeta.
  unfold ttl_refused, count. cbn [self world]. rewrite Hn.
  change (api_calls_limit (new_instance cfg w)) with (cfg_daily_limit cfg).
  rewrite Hl. simpl.
  assert (negb (l =? 0) && (l <=? n) = true) as -> by lia. done.
Qed.



(** ** What no call changes *)

#[local] Instance immutable_refl : Reflexive immutable.
Proof. by intros s. Qed.

#[local] Instance immutable_trans : Transitive immutable.
Proof.
  intros s1 s2 s3 (A1 & B1 & C1 & D1 & E1 & F1) (A2 & B2 & C2 & D2 & E2 & F2).
  repeat split; congruence.
Qed.

(** X21. No [describe], [get], [post] or [login], whatever its outcome,
    changes the configuration, the credentials, the limit or the key of
    the client, or the time to live of any key; no count is removed and
    no count decreases. *)
Theorem X21_calls_keep_client_and_counts s :
  (∀ fuel c r s', perform fuel c s = Some (r, s') → immutable s s' ∧ keeps s s') ∧
  (∀ r s', login s = (r, s') → immutable s s' ∧ keeps s s').
Proof.
  split.
  - intros fuel c r s' Hrun. split; [|by eapply keeps_perform].
    revert Hrun. by apply (respects_perform immutable (λ _, True)).
  - intros r s' Hlogin. split; [|by eapply keeps_login].
    revert Hlogin. by apply (respects_login immutable (λ _, True)).
Qed.

(** X22. The constructor, whether it returns or raises, removes no count
    and lowers none: a count that exists is never set back to 0. *)
Theorem X22_constructor_keeps_counts cfg w r w' k n :
  __init__ cfg w = (r, w') →
  store w !! k = Some n →
  ∃ n', store w' !! k = Some n' ∧ n ≤ n'.
Proof.
  unfold __init__. rewrite init_body_eq. cbv zeta.
  set (s := {| self := new_instance cfg w; world := w |}).
  set (s1 := match count s with Some _ => s | None => initialised s end).
  intros Hinit Hk.
  destruct (ttl_refused s).
  { injection Hinit as <- <-. exists n. split; [done|lia]. }
  assert (H1 : store (world s1) !! k = Some n).
  { unfold s1. destruct (count s) as [m|] eqn:Hm; [done|].
    cbn. rewrite lookup_insert_ne; [done|]. intros <-. unfold count in Hm.
    cbn in Hm. congruence. }
  destruct (limit_reached _ _).
  { injection Hinit as <- <-. exists n. split; [done|lia]. }
  destruct (login s1) as [[[]|e] s2] eqn:Hlogin; injection Hinit as <- <-;
    destruct (keeps_login _ _ _ Hlogin) as (_ & _ & Hstore);
    exact (Hstore k n H1).
Qed.

(** ** The decorator *)

(** X23. With finitely many replies to come, a decorated call ends: it
    returns or raises within one attempt more than there are replies,
    because every attempt that the decorator repeats has consumed one. *)
Theorem X23_decorated_call_ends c fuel s :
  (remaining s < fuel)%nat →
  ∃ r s', perform fuel c s = Some (r, s') ∧ (remaining s' ≤ remaining s)%nat.
Proof.
  intros Hfuel.
  destruct (perform_terminates c fuel s Hfuel) as [[r s'] Hrun].
  exists r, s'. split; [done|].
  revert Hrun. apply (respects_perform shrinks (λ _, True)); try done.
  - intros. apply shrinks_transmitted.
  - intros. by apply shrinks_same_pending.
  - intros. by apply shrinks_same_pending.
  - intros. by apply shrinks_same_pending.
Qed.

(** X24. The retry predicate reads [exc.code], which a [Pardot5xxError]
    does not have, but it answers for both classes the decorator hands
    it; so what a decorated call returns or raises is always what an
    attempt returned or raised, never an error of the predicate. *)
Theorem X24_decorator_reraises_the_target :
  (∀ e, caught e = true →
        is_not_retryable_pardot_exception e = Ok true ∨
        is_not_retryable_pardot_exception e = Ok false) ∧
  (∀ fuel c s r s',
     perform fuel c s = Some (r, s') → ∃ s0, attempt c s0 = (r, s')).
Proof.
  assert (Hgiveup : ∀ e, caught e = true →
            is_not_retryable_pardot_exception e = Ok true ∨
            is_not_retryable_pardot_exception e = Ok false).
  { intros [| code response message | | | | | | | |]; try done; [by right|].
    intros _. simpl. destruct (Py.eq_int code 66); auto. }
  split; [done|].
  intros fuel c s r s'. rewrite perform_attempt. revert s.
  induction fuel as [|fuel IH]; intros s; [done|]. simpl.
  destruct (attempt c s) as [[a|e] s1] eqn:Hattempt.
  - intros [= <- <-]. by exists s.
  - destruct (caught e) eqn:Hcaught; [|intros [= <- <-]; by exists s].
    destruct (Hgiveup e Hcaught) as [-> | ->].
    + intros [= <- <-]. by exists s.
    + apply IH.
Qed.

(** ** The parameters *)

(** X25. The parameters of a request have the names [format] and
    [output] and the names of the caller's filters, and no others; with
    no filters they are exactly [format=json] and [output=bulk]. *)
Theorem X25_names_of_the_parameters kwargs :
  dom (request_params kwargs) = dom kwargs ∪ {["format"; "output"]} ∧
  request_params ∅ = {["format" := JStr "json"; "output" := JStr "bulk"]}.
Proof.
  split.
  - unfold request_params. rewrite dom_union_L, dom_insert_L, dom_singleton_L.
    set_solver.
  - unfold request_params. rewrite (left_id_L ∅ (∪)).
    apply map_eq. intros k.
    destruct (decide (k = "output")) as [->|Ho]; [done|].
    destruct (decide (k = "format")) as [->|Hf]; [done|].
    by simplify_map_eq.
Qed.

(** ** A day's budget *)

Lemma payload_of_Some r p :
  payload_of r = Some p →
  is_2xx r = true ∧ body r = Some p ∧ error_free p = true.
Proof.
  unfold payload_of. destruct (is_2xx r); [|done].
  destruct (body r) as [content|]; [|done].
  destruct (error_free content) eqn:Hfree; [|done]. by intros [= <-].
Qed.

Lemma perform_each_success cs : ∀ s n l rs ps rest,
  count s = Some n →
  0 ≤ n →
  api_calls_limit (self s) = Some l →
  n + Z.of_nat (length cs) ≤ l →
  pending (world s) = (Some <$> rs) ++ rest →
  Forall2 (λ r p, payload_of r = Some p) rs ps →
  length rs = length cs →
  ∃ s', perform_each cs s = Some (Ok <$> ps, s') ∧
        count s' = Some (n + Z.of_nat (length cs)) ∧
        api_calls_limit (self s') = Some l ∧
        pending (world s') = rest.
Proof.
  induction cs as [|c cs IH]; intros s n l rs ps rest Hn H0 Hl Hle Hp Hrs Hlen.
  - destruct rs; [|done]. inversion Hrs; subst. exists s. simpl.
    split_and!; try done. by rewrite Z.add_0_r.
  - destruct rs as [|r rs]; [done|]. inversion Hrs as [|? p ? ps' Hr Hrs']; subst.
    apply payload_of_Some in Hr as (H2xx & Hbody & Hfree).
    simpl in Hlen, Hle, Hp.
    assert (Hb : below_limit (api_calls_limit (self s)) n = true).
    { rewrite Hl. unfold below_limit. lia. }
    set (s1 := counted (transmitted (data_request (call_method c) (call_url c (self s))
                                       (request_params (call_kwargs c)) (self s)) s)).
    assert (Hrun : perform 1 c s = Some (Ok p, s1)).
    { apply (perform_success c 0 s n r p); try done.
      unfold next_reply. by rewrite Hp. }
    assert (Hn1 : count s1 = Some (n + 1)) by (by apply count_counted).
    assert (Hp1 : pending (world s1) = (Some <$> rs) ++ rest)
      by (cbn; by rewrite Hp).
    assert (Hlen1 : length rs = length cs) by (by injection Hlen).
    assert (Hle1 : n + 1 + Z.of_nat (length cs) ≤ l) by lia.
    assert (H01 : 0 ≤ n + 1) by lia.
    destruct (IH s1 (n + 1) l rs ps' rest Hn1 H01 Hl Hle1 Hp1 Hrs' Hlen1)
      as (s' & Heach & Hc & Hl' & Hp').
    exists s'. cbn [perform_each]. rewrite Hrun, Heach.
    split_and!; try done. rewrite Hc. f_equal. simpl length. lia.
Qed.

(** X26. A client with count [n] and limit [l] that makes calls one after
    the other, each answered by an error-free 2xx reply, gets every
    payload as long as the calls fit under the limit, and the count
    grows by the number of calls.  Once the count has reached the limit,
    the next call is refused with nothing sent. *)
Theorem X26_budget_of_successive_calls cs s n l rs ps rest :
  count s = Some n →
  0 ≤ n →
  api_calls_limit (self s) = Some l →
  n + Z.of_nat (length cs) ≤ l →
  pending (world s) = (Some <$> rs) ++ rest →
  Forall2 (λ r p, payload_of r = Some p) rs ps →
  length rs = length cs →
  ∃ s', perform_each cs s = Some (Ok <$> ps, s') ∧
        count s' = Some (n + Z.of_nat (length cs)) ∧
        pending (world s') = rest ∧
        (n + Z.of_nat (length cs) = l →
         ∀ c fuel, perform (S fuel) c s' = Some (Raise PardotUserLimitReached, s')).
Proof.
  intros Hn H0 Hl Hle Hp Hrs Hlen.
  destruct (perform_each_success cs s n l rs ps rest) as (s' & Heach & Hc & Hl' & Hp');
    try done.
  exists s'. split_and!; try done.
  intros Heq c fuel. apply perform_passes; [|done]. apply attempt_raises.
  eapply _make_request_refused; [exact Hc|].
  rewrite Hl'. apply below_limit_reached. lia.
Qed.

(** ** The further properties on concrete runs *)

Import Scenario.

Lemma X2_witness :
  ∃ err, embedded_error invalid_id = Some (JNum 3, err) ∧
         error_text (JNum 3) "retrieving endpoint" (JStr "Invalid prospect ID")
         = error_text (JNum 3) "retrieving endpoint" err.
Proof.
  exact (proj2 (X2_check_error_exception invalid_id "retrieving endpoint"
                  (at_count None 0 []) (JNum 3) invalid_id
                  (error_text (JNum 3) "retrieving endpoint"
                     (JStr "Invalid prospect ID"))
                  (at_count None 0 []) eq_refl)).
Defined.

Lemma X3_witness :
  _check_error bare_error "authenticating" (at_count None 0 [])
  = (Raise (KeyError "@attributes"), at_count None 0 []) ∧
  _check_error codeless_error "authenticating" (at_count None 0 [])
  = (Raise (KeyError "err_code"), at_count None 0 []).
Proof.
  destruct (X3_check_error_malformed "authenticating" (at_count None 0 []))
    as (Hbare & Hcodeless & _).
  split.
  - exact (Hbare [("err", JStr "Unknown error")] (JStr "Unknown error")
             eq_refl eq_refl eq_refl).
  - exact (Hcodeless [("@attributes", JObj [("stat", JStr "fail")]);
                      ("err", JStr "Unknown error")]
             (JStr "Unknown error") [("stat", JStr "fail")]
             eq_refl eq_refl eq_refl eq_refl).
Defined.

Lemma X4_witness :
  new_PardotException (Lit "message") bare_error
  = Ok (PardotException JNull bare_error (Lit "message")).
Proof.
  destruct (X4_exception_without_attributes (Lit "message")) as [H _].
  exact (proj1 (H [("err", JStr "Unknown error")] eq_refl)).
Defined.

(** The count of the day was never set for this client. *)
Lemma X5_witness :
  perform 1 (Describe "prospect" ∅)
    {| self := client (Some 5); world := fresh [Some (reply page)] |}
  = Some (Raise TypeError,
          {| self := client (Some 5); world := fresh [Some (reply page)] |}).
Proof.
  exact (proj2 (X5_no_count_is_type_error (Describe "prospect" ∅) 0
                  {| self := client (Some 5); world := fresh [Some (reply page)] |}
                  eq_refl)).
Defined.

Lemma X6_witness :
  outcome (perform 3 (Describe "prospect" ∅) (at_count (Some 5) 1 []))
  = Some (Raise ConnectionError, Some 1).
Proof.
  pose proof (X6_connection_failure_not_retried (Describe "prospect" ∅) 2
                (at_count (Some 5) 1 []) 1 eq_refl eq_refl eq_refl) as H.
  cbv zeta in H. destruct H as (Hrun & _ & Hcount).
  unfold outcome. rewrite Hrun. cbn [fmap option_fmap option_map].
  by rewrite Hcount.
Defined.

(** A 503 and then a page. *)
Lemma X7_witness :
  outcome (perform 2 (Describe "prospect" ∅)
             (at_count (Some 5) 1 [Some unavailable; Some (reply page)]))
  = Some (Ok page, Some 2).
Proof.
  pose proof (X7_5xx_is_retried (Describe "prospect" ∅) 0
                (at_count (Some 5) 1 [Some unavailable; Some (reply page)]) 1
                unavailable eq_refl eq_refl eq_refl ltac:(simpl; lia)) as H.
  cbv zeta in H. destruct H as [_ H].
  destruct (H (reply page) page [] eq_refl eq_refl eq_refl eq_refl)
    as (Hrun & _ & Hcount).
  unfold outcome. rewrite Hrun. cbn [fmap option_fmap option_map].
  by rewrite Hcount.
Defined.

Lemma X8_witness :
  perform 2 (Fetch "get" "prospect" None ∅)
    (at_count (Some 5) 1 [Some (reply busy); Some (reply page)])
  = perform 1 (Fetch "get" "prospect" None ∅)
      (transmitted
         (data_request "get"
            (call_url (Fetch "get" "prospect" None ∅) (client (Some 5)))
            (request_params ∅) (client (Some 5)))
         (at_count (Some 5) 1 [Some (reply busy); Some (reply page)])).
Proof.
  exact (proj1 (X8_code_66_is_retried (Fetch "get" "prospect" None ∅) 1
                  (at_count (Some 5) 1 [Some (reply busy); Some (reply page)]) 1
                  (reply busy) busy (JNum 66)
                  (JStr "You have exceeded your concurrent request limit")
                  eq_refl eq_refl eq_refl eq_refl eq_refl eq_refl eq_refl)).
Defined.

Lemma X9_witness :
  outcome (perform 3 (Fetch "post" "prospect" None ∅)
             (at_count (Some 5) 1 [Some not_found; Some (reply page)]))
  = Some (Raise (HTTPError 404), Some 1).
Proof.
  pose proof (X9_4xx_not_retried (Fetch "post" "prospect" None ∅) 2
                (at_count (Some 5) 1 [Some not_found; Some (reply page)]) 1
                not_found eq_refl eq_refl eq_refl ltac:(simpl; lia)) as H.
  cbv zeta in H. destruct H as (Hrun & Hcount).
  unfold outcome. rewrite Hrun. cbn [fmap option_fmap option_map].
  by rewrite Hcount.
Defined.

Lemma X10_witness :
  outcome (perform 3 (Fetch "get" "prospect" None ∅)
             (at_count (Some 5) 1 [Some (reply invalid_id); Some (reply page)]))
  = Some (Raise (PardotException (JNum 3) invalid_id
                   (error_text (JNum 3) "retrieving endpoint"
                      (JStr "Invalid prospect ID"))), Some 1).
Proof.
  pose proof (X10_other_error_surfaces (Fetch "get" "prospect" None ∅) 2
                (at_count (Some 5) 1 [Some (reply invalid_id); Some (reply page)]) 1
                (reply invalid_id) invalid_id (JNum 3) (JStr "Invalid prospect ID")
                eq_refl eq_refl eq_refl eq_refl eq_refl eq_refl eq_refl eq_refl
                eq_refl) as H.
  cbv zeta in H. destruct H as (Hrun & Hcount).
  unfold outcome. rewrite Hrun. cbn [fmap option_fmap option_map].
  by rewrite Hcount.
Defined.

(** The 503 with a JSON body, as the reply to the second sending. *)
Lemma X11_witness :
  ∃ s', perform 1 (Describe "prospect" ∅)
          (at_count (Some 5) 1 [Some (reply key_expired); Some (reply logged_in);
                                Some unavailable])
        = Some (Ok page, s') ∧
        count s' = Some 3.
Proof.
  destruct (X11_status_of_second_reply_ignored unavailable page
              ltac:(simpl; lia) eq_refl eq_refl) as [_ H].
  exact (H (Describe "prospect" ∅) 0%nat
           (at_count (Some 5) 1 [Some (reply key_expired); Some (reply logged_in);
                                 Some unavailable])
           1 (reply key_expired) key_expired (JNum 1)
           (JStr "Invalid API key or user key") (reply logged_in) logged_in
           (JStr "k1") []
           eq_refl eq_refl eq_refl eq_refl eq_refl eq_refl eq_refl eq_refl
           eq_refl eq_refl eq_refl).
Defined.

(** Code 122 in the second reply. *)
Lemma X12_witness :
  outcome (perform 1 (Describe "prospect" ∅)
             (at_count (Some 5) 1 [Some (reply key_expired); Some (reply logged_in);
                                   Some (reply limit_met)]))
  = Some (Raise (PardotException (JNum 122) limit_met
                   (error_text (JNum 122) "describing endpoint"
                      (JStr "Daily API rate limit met"))), Some 3).
Proof.
  pose proof (X12_error_in_second_reply (Describe "prospect" ∅) 0
                (at_count (Some 5) 1 [Some (reply key_expired); Some (reply logged_in);
                                      Some (reply limit_met)])
                1 (reply key_expired) key_expired (JNum 1)
                (JStr "Invalid API key or user key") (reply logged_in) logged_in
                (JStr "k1") (reply limit_met) limit_met (JNum 122)
                (JStr "Daily API rate limit met") []
                eq_refl eq_refl eq_refl eq_refl eq_refl eq_refl eq_refl eq_refl
                eq_refl eq_refl eq_refl eq_refl eq_refl) as H.
  cbv zeta in H. destruct H as (Hcount & Hrun & _).
  unfold outcome. rewrite (Hrun eq_refl). cbn [fmap option_fmap option_map].
  by rewrite Hcount.
Defined.

Lemma X13_witness :
  outcome (perform 3 (Describe "prospect" ∅)
             (at_count (Some 5) 1 [Some (reply key_expired); Some unavailable;
                                   Some (reply page)]))
  = Some (Raise (HTTPError 503), Some 1).
Proof.
  pose proof (X13_relogin_status_error (Describe "prospect" ∅) 2
                (at_count (Some 5) 1 [Some (reply key_expired); Some unavailable;
                                      Some (reply page)])
                1 (reply key_expired) key_expired (JNum 1)
                (JStr "Invalid API key or user key") unavailable
                [Some (reply page)]
                eq_refl eq_refl eq_refl eq_refl eq_refl eq_refl eq_refl
                ltac:(simpl; lia)) as H.
  cbv zeta in H. destruct H as (Hrun & _ & Hcount & _).
  unfold outcome. rewrite Hrun. cbn [fmap option_fmap option_map].
  by rewrite Hcount.
Defined.

Lemma X14_witness :
  outcome (perform 3 (Describe "prospect" ∅)
             (at_count (Some 5) 1 [Some (reply key_expired);
                                   Some (reply invalid_credentials);
                                   Some (reply page)]))
  = Some (Raise (PardotException (JNum 15) invalid_credentials
                   (error_text (JNum 15) "authenticating" (JStr "Login failed"))),
          Some 1).
Proof.
  pose proof (X14_relogin_embedded_error (Describe "prospect" ∅) 2
                (at_count (Some 5) 1 [Some (reply key_expired);
                                      Some (reply invalid_credentials);
                                      Some (reply page)])
                1 (reply key_expired) key_expired (JNum 1)
                (JStr "Invalid API key or user key")
                (reply invalid_credentials) invalid_credentials (JNum 15)
                (JStr "Login failed") [Some (reply page)]
                eq_refl eq_refl eq_refl eq_refl eq_refl eq_refl eq_refl
                eq_refl eq_refl eq_refl) as H.
  cbv zeta in H. destruct H as (Hcount & _ & Hrun & _).
  unfold outcome. rewrite (Hrun eq_refl). cbn [fmap option_fmap option_map].
  by rewrite Hcount.
Defined.

Lemma X15_witness :
  outcome (perform 3 (Describe "prospect" ∅)
             (at_count (Some 5) 1 [Some (reply key_expired); Some (reply logged_in)]))
  = Some (Raise ConnectionError, Some 2).
Proof.
  pose proof (X15_second_sending_fails (Describe "prospect" ∅) 2
                (at_count (Some 5) 1 [Some (reply key_expired); Some (reply logged_in)])
                1 (reply key_expired) key_expired (JNum 1)
                (JStr "Invalid API key or user key") (reply logged_in) logged_in
                (JStr "k1") []
                eq_refl eq_refl eq_refl eq_refl eq_refl eq_refl eq_refl eq_refl
                eq_refl eq_refl eq_refl) as H.
  cbv zeta in H. destruct H as (Hcount & _ & Hrun & _).
  unfold outcome. rewrite (Hrun I). cbn [fmap option_fmap option_map].
  by rewrite Hcount.
Defined.

Lemma X16_witness :
  api_key (self (attempt (Describe "prospect" ∅)
                   (at_count (Some 5) 1 [Some (reply key_expired);
                                         Some (reply logged_in);
                                         Some (reply page)])).2)
  = JStr "k1" ∧
  api_version (self (attempt (Describe "prospect" ∅)
                       (at_count (Some 5) 1 [Some (reply key_expired);
                                             Some (reply logged_in);
                                             Some (reply page)])).2)
  = JNum 4.
Proof.
  pose proof (X16_headers_of_a_reauthenticated_call (Describe "prospect" ∅)
                (at_count (Some 5) 1 [Some (reply key_expired); Some (reply logged_in);
                                      Some (reply page)])
                1 (reply key_expired) key_expired (JNum 1)
                (JStr "Invalid API key or user key") (reply logged_in) logged_in
                (JStr "k1") [Some (reply page)] _ _
                eq_refl eq_refl eq_refl eq_refl eq_refl eq_refl eq_refl eq_refl
                eq_refl eq_refl eq_refl (surjective_pairing _)) as H.
  cbv zeta in H. destruct H as (_ & Hkey & Hversion).
  split; [exact Hkey|]. rewrite Hversion. reflexivity.
Defined.

(** A login with the count above the limit. *)
Lemma X17_witness :
  ∃ s', login (at_count (Some 5) 7 [Some (reply logged_in)]) = (Ok tt, s') ∧
        count s' = Some 8.
Proof.
  destruct (X17_login_counts_itself (at_count (Some 5) 7 [Some (reply logged_in)])
              (reply logged_in) logged_in (JStr "k1")
              eq_refl ltac:(simpl; lia) eq_refl eq_refl eq_refl)
    as (s' & Hlogin & Hcount & _).
  exists s'. split; [exact Hlogin|]. rewrite Hcount. reflexivity.
Defined.


Lemma X19_witness :
  __init__ (cfg (Some 5)) (world (at_count (Some 5) 5 [Some (reply logged_in)]))
  = (Raise PardotUserLimitReached,
     world (at_count (Some 5) 5 [Some (reply logged_in)])).
Proof.
  apply (X19_constructor_at_limit (cfg (Some 5)) _ 5 5).
  - reflexivity.
  - lia.
  - vm_compute; reflexivity.
  - lia.
Defined.


(** A constructor whose login gets no reply. *)
Lemma X22_witness :
  ∃ n', store (__init__ (cfg (Some 5)) (world (at_count (Some 5) 3 []))).2 !! key
        = Some n' ∧ 3 ≤ n'.
Proof.
  exact (X22_constructor_keeps_counts (cfg (Some 5)) (world (at_count (Some 5) 3 []))
           _ _ key 3 (surjective_pairing _) eq_refl).
Defined.

(** Two 503s and nothing after them. *)
Lemma X23_witness :
  ∃ r s', perform 3 (Describe "prospect" ∅)
            (at_count (Some 5) 1 [Some unavailable; Some unavailable])
          = Some (r, s') ∧
          (remaining s' ≤ 2)%nat.
Proof.
  exact (X23_decorated_call_ends (Describe "prospect" ∅) 3
           (at_count (Some 5) 1 [Some unavailable; Some unavailable])
           ltac:(vm_compute; lia)).
Defined.

(** Limit 3, one call counted, two calls made: the third is refused. *)
Lemma X26_witness :
  ∃ s', perform_each [Describe "prospect" ∅; Fetch "get" "prospect" None ∅]
          (at_count (Some 3) 1 [Some (reply page); Some (reply page)])
        = Some ([Ok page; Ok page], s') ∧
        count s' = Some 3 ∧
        perform 1 (Describe "prospect" ∅) s' = Some (Raise PardotUserLimitReached, s').
Proof.
  destruct (X26_budget_of_successive_calls
              [Describe "prospect" ∅; Fetch "get" "prospect" None ∅]
              (at_count (Some 3) 1 [Some (reply page); Some (reply page)])
              1 3 [reply page; reply page] [page; page] []
              eq_refl ltac:(lia) eq_refl ltac:(simpl; lia) eq_refl
              ltac:(repeat constructor) eq_refl)
    as (s' & Heach & Hcount & _ & Hrefused).
  exists s'. split_and!.
  - exact Heach.
  - exact Hcount.
  - exact (Hrefused eq_refl (Describe "prospect" ∅) 0%nat).
Defined.

